(** * A minimal HTTP/1.1 server (server.py): model and verified properties

    The development follows the layout of [server.py]:

    - [PyStr]: the operations of Python's [str] and [bytes] that the server
      uses ([split], [strip], [lower], [startswith], slicing, [int], the
      UTF-8 codec), on sequences of code points and of bytes;
    - [PosixPath]: [os.path.join], [normpath], [abspath], [dirname];
    - [exception], [result]: the exceptions that the code raises and
      catches;
    - [FS]: the file-system calls of [FileHandler] as a tree of calls, and a
      handler that runs such a tree on a finite-map model of the disk;
    - [socket]: the client socket, with calls that can fail;
    - [HTTPRequest], [FileHandler], [HTTPServer] and [handle_client];
    - the properties, one section per component. *)

From Stdlib Require Import ZArith NArith List String Ascii Bool Lia.
From Stdlib.Strings Require Import Byte.
From stdpp Require Import base option list gmap.

Set Default Proof Using "Type".
Local Open Scope N_scope.

(** Python's [str] is a sequence of Unicode code points; [bytes] a sequence
    of octets. *)
Abbreviation str := (list N) (only parsing).
Abbreviation bytes := (list byte) (only parsing).

(** ** Python string operations *)
Module PyStr.

(** A string literal of the source, as code points. *)
Fixpoint lit (s : string) : str :=
  match s with
  | EmptyString => []
  | String a s' => N_of_ascii a :: lit s'
  end.

Definition CR : N := 13.
Definition LF : N := 10.
Definition CRLF : str := [CR; LF].

Definition str_eqb (a b : str) : bool := bool_decide (a = b).

(** [s.startswith(p)] *)
Fixpoint startswith (s p : str) {struct p} : bool :=
  match p, s with
  | [], _ => true
  | _ :: _, [] => false
  | a :: p', b :: s' => (a =? b) && startswith s' p'
  end.

(** [sub in s] *)
Fixpoint contains (s sub : str) : bool :=
  startswith s sub ||
  match s with
  | [] => false
  | _ :: s' => contains s' sub
  end.

(** [s.split(sep)] for a non-empty [sep]: the separators are the leftmost
    non-overlapping occurrences.  [cur] is the token being read, reversed;
    [skip] counts the characters of a matched separator still to pass. *)
Fixpoint split_go (sep s cur : str) (skip : nat) : list str :=
  match s with
  | [] => [rev cur]
  | c :: s' =>
      match skip with
      | S k => split_go sep s' cur k
      | O =>
          if startswith s sep
          then rev cur :: split_go sep s' [] (length sep - 1)
          else split_go sep s' (c :: cur) O
      end
  end.

Definition split (sep s : str) : list str := split_go sep s [] O.

(** [s.split(sep, 1)]: at most one split, at the leftmost occurrence. *)
Fixpoint split1 (sep s : str) : list str :=
  match s with
  | [] => [[]]
  | c :: s' =>
      if startswith s sep then [[]; drop (length sep) s]
      else match split1 sep s' with
           | [h; t] => [c :: h; t]
           | _ => [s]
           end
  end.

(** [sep.join(l)] *)
Fixpoint join (sep : str) (l : list str) : str :=
  match l with
  | [] => []
  | [x] => x
  | x :: l' => x ++ sep ++ join sep l'
  end.

(** Whitespace in the sense of [str.split()] and [str.strip()]
    ([Py_UNICODE_ISSPACE]). *)
Definition isspace (c : N) : bool :=
  ((9 <=? c) && (c <=? 13)) || ((28 <=? c) && (c <=? 32))
  || (c =? 0x85) || (c =? 0xA0) || (c =? 0x1680)
  || ((0x2000 <=? c) && (c <=? 0x200A))
  || (c =? 0x2028) || (c =? 0x2029) || (c =? 0x202F)
  || (c =? 0x205F) || (c =? 0x3000).

(** [s.split()]: the maximal runs of non-whitespace characters. *)
Fixpoint split_ws_go (s cur : str) : list str :=
  match s with
  | [] => match cur with [] => [] | _ => [rev cur] end
  | c :: s' =>
      if isspace c
      then match cur with
           | [] => split_ws_go s' []
           | _ => rev cur :: split_ws_go s' []
           end
      else split_ws_go s' (c :: cur)
  end.

Definition split_ws (s : str) : list str := split_ws_go s [].

Fixpoint dropwhile (p : N -> bool) (s : str) : str :=
  match s with
  | [] => []
  | c :: s' => if p c then dropwhile p s' else s
  end.

Definition lstrip (s : str) : str := dropwhile isspace s.
Definition rstrip (s : str) : str := rev (dropwhile isspace (rev s)).
(** [s.strip()] *)
Definition strip (s : str) : str := rstrip (lstrip s).

Definition isascii (s : str) : bool := forallb (fun c => c <? 128) s.

Definition lower_ascii (c : N) : N :=
  if (65 <=? c) && (c <=? 90) then c + 32 else c.

(** [s.lower()].  On an ASCII string it maps [A-Z] to [a-z]; otherwise
    Python applies the case mapping of the Unicode database (which is not a
    character-wise map: the lower case of a capital sigma depends on its
    position), given here as [unicode_lower]. *)
Definition lower (unicode_lower : str -> str) (s : str) : str :=
  if isascii s then map lower_ascii s else unicode_lower s.

(** [s[n:]] and [s[:n]] for [n >= 0] are [drop n s] and [take n s].
    [b[:n]] for any integer [n]: a negative bound counts from the end. *)
Definition slice_to {A} (n : Z) (l : list A) : list A :=
  if (0 <=? n)%Z then take (Z.to_nat n) l
  else take (length l - Z.to_nat (- n)) l.

(** *** [int(s)] *)

Definition isdigit (c : N) : bool := (48 <=? c) && (c <=? 57).

(** The C-locale [isspace] that [int] uses to trim an ASCII string. *)
Definition c_isspace (c : N) : bool := ((9 <=? c) && (c <=? 13)) || (c =? 32).

(** Digits with single underscores between them, most significant first;
    [after_digit] tells whether the previous character was a digit. *)
Fixpoint digits_go (s : str) (acc : Z) (after_digit : bool) : option Z :=
  match s with
  | [] => if after_digit then Some acc else None
  | c :: s' =>
      if isdigit c then digits_go s' (10 * acc + Z.of_N (c - 48))%Z true
      else if (c =? 95) && after_digit then digits_go s' acc false
      else None
  end.

Definition int_ascii (s : str) : option Z :=
  let s := rev (dropwhile c_isspace (rev (dropwhile c_isspace s))) in
  match s with
  | c :: s' =>
      if c =? 43 then digits_go s' 0%Z false
      else if c =? 45 then Z.opp <$> digits_go s' 0%Z false
      else digits_go s 0%Z false
  | [] => None
  end.

(** [int(s)]: [None] stands for [ValueError].  A string with non-ASCII
    characters is first rewritten with the decimal-digit and white-space
    tables of the Unicode database; that case is [unicode_int].  (CPython's
    optional limit of 4300 digits is out of reach here: a request holds at
    most [BUFFER_SIZE] = 4096 bytes.) *)
Definition int (unicode_int : str -> option Z) (s : str) : option Z :=
  if isascii s then int_ascii s else unicode_int s.

(** The character of a decimal digit. *)
Definition digit (k : nat) : N := 48 + N.of_nat k.

(** [str(n)] for a length [n]. *)
Fixpoint str_of_nat_go (fuel n : nat) (acc : str) : str :=
  let acc' := digit (n mod 10) :: acc in
  match fuel with
  | O => acc'
  | S fuel' => if (n <? 10)%nat then acc' else str_of_nat_go fuel' (n / 10) acc'
  end.

Definition str_of_nat (n : nat) : str := str_of_nat_go n n [].

(** *** The UTF-8 codec *)

Definition byte_of_N (n : N) : byte :=
  match Byte.of_N n with Some b => b | None => x00 end.

(** The UTF-8 form of a Unicode scalar value. *)
Definition encode_char (c : N) : bytes :=
  if c <? 0x80 then [byte_of_N c]
  else if c <? 0x800 then
    [byte_of_N (0xC0 + c / 64); byte_of_N (0x80 + c mod 64)]
  else if c <? 0x10000 then
    [byte_of_N (0xE0 + c / 4096); byte_of_N (0x80 + (c / 64) mod 64);
     byte_of_N (0x80 + c mod 64)]
  else
    [byte_of_N (0xF0 + c / 262144); byte_of_N (0x80 + (c / 4096) mod 64);
     byte_of_N (0x80 + (c / 64) mod 64); byte_of_N (0x80 + c mod 64)].

(** The UTF-8 form of a string of scalar values. *)
Definition utf8 (s : str) : bytes := flat_map encode_char s.

(** The code points that UTF-8 encodes: all but the surrogates
    U+D800..U+DFFF.  (A [str] holds code points up to U+10FFFF; a larger
    number is no code point, and is refused here as well.) *)
Definition is_scalar (c : N) : bool :=
  (c <? 0xD800) || ((0xDFFF <? c) && (c <=? 0x10FFFF)).

(** [s.encode()], with the strict error handler: [None] stands for
    [UnicodeEncodeError], which a surrogate in [s] raises. *)
Definition encode (s : str) : option bytes :=
  if forallb is_scalar s then Some (utf8 s) else None.

Definition is_cont (b : N) : bool := (0x80 <=? b) && (b <=? 0xBF).

(** [b.decode()] with the strict error handler: [None] stands for
    [UnicodeDecodeError] (a stray or missing continuation byte, an overlong
    form, a surrogate, a value above U+10FFFF). *)
Fixpoint decode_go (b : list N) : option str :=
  match b with
  | [] => Some []
  | b0 :: r0 =>
      if b0 <? 0x80 then cons b0 <$> decode_go r0
      else if (0xC2 <=? b0) && (b0 <=? 0xDF) then
        match r0 with
        | b1 :: r1 =>
            if is_cont b1
            then cons ((b0 - 0xC0) * 64 + (b1 - 0x80)) <$> decode_go r1
            else None
        | _ => None
        end
      else if (0xE0 <=? b0) && (b0 <=? 0xEF) then
        match r0 with
        | b1 :: b2 :: r2 =>
            let c := (b0 - 0xE0) * 4096 + (b1 - 0x80) * 64 + (b2 - 0x80) in
            if is_cont b1 && is_cont b2 && (0x800 <=? c)
               && negb ((0xD800 <=? c) && (c <=? 0xDFFF))
            then cons c <$> decode_go r2
            else None
        | _ => None
        end
      else if (0xF0 <=? b0) && (b0 <=? 0xF4) then
        match r0 with
        | b1 :: b2 :: b3 :: r3 =>
            let c := (b0 - 0xF0) * 262144 + (b1 - 0x80) * 4096
                     + (b2 - 0x80) * 64 + (b3 - 0x80) in
            if is_cont b1 && is_cont b2 && is_cont b3
               && (0x10000 <=? c) && (c <=? 0x10FFFF)
            then cons c <$> decode_go r3
            else None
        | _ => None
        end
      else None
  end.

Definition decode (b : bytes) : option str := decode_go (map Byte.to_N b).

End PyStr.

(** ** [os.path] on POSIX *)
Module PosixPath.
Import PyStr.

Definition sep : str := lit "/".

(** [os.path.join(a, b)] *)
Definition join (a b : str) : str :=
  if startswith b sep then b
  else if bool_decide (a = []) || startswith (rev a) sep then a ++ b
  else a ++ sep ++ b.

(** One turn of the loop of [normpath]; [new_comps] is kept with its last
    element first. *)
Definition norm_step (initial_slashes : nat) (new_comps : list str)
    (comp : str) : list str :=
  if str_eqb comp [] || str_eqb comp (lit ".") then new_comps
  else if negb (str_eqb comp (lit ".."))
          || ((initial_slashes =? 0)%nat && bool_decide (new_comps = []))
          || match new_comps with
             | top :: _ => str_eqb top (lit "..")
             | [] => false
             end
  then comp :: new_comps
  else match new_comps with
       | _ :: rest => rest
       | [] => []
       end.

(** [os.path.normpath(path)] *)
Definition normpath (path : str) : str :=
  if bool_decide (path = []) then lit "."
  else
    let initial_slashes :=
      if startswith path sep then
        if startswith path (lit "//") && negb (startswith path (lit "///"))
        then 2%nat else 1%nat
      else 0%nat in
    let comps := PyStr.split sep path in
    let new_comps := fold_left (norm_step initial_slashes) comps [] in
    let path := PyStr.join sep (rev new_comps) in
    let path := concat (replicate initial_slashes sep) ++ path in
    if bool_decide (path = []) then lit "." else path.

(** [os.path.abspath(path)], with the working directory of the process. *)
Definition abspath (cwd path : str) : str :=
  normpath (if startswith path sep then path else join cwd path).

(** [os.path.dirname(p)] *)
Definition dirname (p : str) : str :=
  let head := rev (dropwhile (fun c => negb (c =? 47)) (rev p)) in
  if negb (bool_decide (head = [])) && negb (forallb (fun c => c =? 47) head)
  then rev (dropwhile (fun c => c =? 47) (rev head))
  else head.

End PosixPath.

(** ** Exceptions

    The exceptions that the code of the server can meet.  A call that can
    raise returns a [result]; [try] ... [except] is a case distinction on
    it.  ([int], [decode] and [encode] return an [option]: each raises one
    exception only.)  The [print] calls of the [except] clauses write to
    the standard output; they are taken to succeed and are left out. *)
Inductive exception :=
| ValueError
| UnicodeEncodeError
| UnicodeDecodeError
| OSError.

Inductive result (A : Type) : Type :=
| Return (a : A)
| Raise (e : exception).
Arguments Return {A} a.
Arguments Raise {A} e.

(** [isinstance(e, ValueError)]: the two Unicode errors are subclasses of
    [ValueError]. *)
Definition is_ValueError (e : exception) : bool :=
  match e with
  | ValueError | UnicodeEncodeError | UnicodeDecodeError => true
  | OSError => false
  end.

(** ** The file-system calls of the server *)
Module FS.
Import PyStr.

(** A computation that calls the file system: the calls [FileHandler]
    makes, each with the continuation that receives its outcome.
    [Open_rb p] is [open(p, 'rb')] followed by [read()] ([None]: an
    exception was raised); [Makedirs p] is [os.makedirs(p, exist_ok=True)];
    [Open_wb p] is [open(p, 'wb')], which creates the file or empties it;
    [Write p c] is [f.write(c)] on the file just opened as [p], with the
    close that ends the [with] block ([false]: an exception was raised;
    the call that raised may have done part of its work). *)
Inductive io (A : Type) : Type :=
| Ret (a : A)
| Open_rb (path : str) (k : option bytes -> io A)
| Makedirs (path : str) (k : bool -> io A)
| Open_wb (path : str) (k : bool -> io A)
| Write (path : str) (content : bytes) (k : bool -> io A).
Arguments Ret {A} a.
Arguments Open_rb {A} path k.
Arguments Makedirs {A} path k.
Arguments Open_wb {A} path k.
Arguments Write {A} path content k.

Fixpoint bind {A B} (m : io A) (f : A -> io B) : io B :=
  match m with
  | Ret a => f a
  | Open_rb p k => Open_rb p (fun r => bind (k r) f)
  | Makedirs p k => Makedirs p (fun r => bind (k r) f)
  | Open_wb p k => Open_wb p (fun r => bind (k r) f)
  | Write p c k => Write p c (fun r => bind (k r) f)
  end.

(** A computation that returns without calling the file system. *)
Definition makes_no_call {A} (m : io A) : Prop :=
  exists a, m = Ret a.

(** *** A disk without symbolic links

    Regular files and directories, each under its resolved absolute path
    (["/" ++ "/".join(components)]), and the number of bytes that the
    files can still grow by.  There are no permissions and no other
    process: a call fails only for the shape of the tree, or for want of
    space. *)
Record disk := Disk {
  files : gmap str bytes;
  dirs : gset str;
  free : N
}.

Definition path_of (cur : list str) : str :=
  lit "/" ++ PyStr.join (lit "/") (rev cur).

(** Path resolution as the kernel does it, one component at a time from
    the root: a step can only be taken from a directory.  [cur] holds the
    components reached so far, last first. *)
Fixpoint walk (ds : gset str) (comps cur : list str) : option (list str) :=
  match comps with
  | [] => Some cur
  | c :: comps' =>
      if bool_decide (path_of cur ∈ ds) then
        if str_eqb c [] || str_eqb c (lit ".") then walk ds comps' cur
        else if str_eqb c (lit "..") then walk ds comps' (tail cur)
        else walk ds comps' (c :: cur)
      else None
  end.

(** The components of a path handed to a system call; [None] for the empty
    path and for one with a NUL character, which every call refuses. *)
Definition components (cwd p : str) : option (list str) :=
  if bool_decide (p = []) || bool_decide (0 ∈ p) then None
  else Some (PyStr.split (lit "/") (if startswith p (lit "/") then p
                                    else cwd ++ lit "/" ++ p)).

Definition resolve (cwd : str) (ds : gset str) (p : str) : option str :=
  comps ← components cwd p; path_of <$> walk ds comps [].

Definition os_open_rb (cwd : str) (d : disk) (p : str) : option bytes :=
  q ← resolve cwd (dirs d) p;
  if bool_decide (q ∈ dirs d) then None else files d !! q.

(** [mkdir -p]: every missing directory along the path is created; a
    regular file in the way is an error ([false]), and the directories
    created before it stay. *)
Fixpoint mkdirs (fs : gmap str bytes) (ds : gset str) (comps cur : list str)
    : bool * gset str :=
  match comps with
  | [] => (true, ds)
  | c :: comps' =>
      if str_eqb c [] || str_eqb c (lit ".") then mkdirs fs ds comps' cur
      else if str_eqb c (lit "..") then mkdirs fs ds comps' (tail cur)
      else
        let q := path_of (c :: cur) in
        if bool_decide (is_Some (fs !! q)) then (false, ds)
        else mkdirs fs ({[q]} ∪ ds) comps' (c :: cur)
  end.

Definition os_makedirs (cwd : str) (d : disk) (p : str) : bool * disk :=
  match components cwd p with
  | Some comps =>
      let '(ok, ds) := mkdirs (files d) (dirs d) comps [] in
      (ok, Disk (files d) ds (free d))
  | None => (false, d)
  end.

(** [open(p, 'wb')]: the file is created empty, or cut to length zero,
    which gives its bytes back to the free space. *)
Definition os_open_wb (cwd : str) (d : disk) (p : str) : option disk :=
  q ← resolve cwd (dirs d) p;
  if bool_decide (q ∈ dirs d) then None
  else Some (Disk (<[q := []]> (files d)) (dirs d)
               (free d + N.of_nat (length (default [] (files d !! q))))).

(** [f.write(c)] and the close, on the file opened as [p]: when the disk
    runs full, the bytes that still fit are in the file and the call
    fails. *)
Definition os_write (cwd : str) (d : disk) (p : str) (c : bytes)
    : bool * disk :=
  match resolve cwd (dirs d) p with
  | Some q =>
      if N.of_nat (length c) <=? free d
      then (true, Disk (<[q := c]> (files d)) (dirs d)
                    (free d - N.of_nat (length c)))
      else (false, Disk (<[q := take (N.to_nat (free d)) c]> (files d))
                     (dirs d) 0)
  | None => (false, d)
  end.

(** Running a computation on a disk. *)
Fixpoint run {A} (cwd : str) (m : io A) (d : disk) : A * disk :=
  match m with
  | Ret a => (a, d)
  | Open_rb p k => run cwd (k (os_open_rb cwd d p)) d
  | Makedirs p k =>
      let '(ok, d') := os_makedirs cwd d p in run cwd (k ok) d'
  | Open_wb p k =>
      match os_open_wb cwd d p with
      | Some d' => run cwd (k true) d'
      | None => run cwd (k false) d
      end
  | Write p c k =>
      let '(ok, d') := os_write cwd d p c in run cwd (k ok) d'
  end.

End FS.

(** ** The client socket

    What the three methods that [handle_client] calls answer: [recv] the
    bytes received (at most [bufsize] of them), [sendall] and [close]
    nothing; each of them can raise [OSError] instead. *)
Module socket.

Record t := Build {
  recv : nat -> result bytes;
  sendall : bytes -> result unit;
  close : result unit
}.

End socket.

(** ** What the server takes from the Python runtime

    [gzip.compress] (the time stamp it writes in the header is left out),
    the parts of [str.lower] and [int] that consult the Unicode database,
    and the working directory of the process. *)
Record runtime := Runtime {
  gzip_compress : bytes -> bytes;
  unicode_lower : str -> str;
  unicode_int : str -> option Z;
  getcwd : str
}.

Definition BUFFER_SIZE : nat := 4096.

(** ** [class HTTPRequest] *)
Module HTTPRequest.
Import PyStr.

Record t := Build {
  method : str;
  path : str;
  headers : gmap str str;
  body : bytes
}.

(** The attributes as [__init__] sets them before it calls [_parse]. *)
Definition init : t :=
  {| method := []; path := []; headers := ∅; body := [] |}.

Section parse.
Context (rt : runtime).

(** The body of the loop over [header_lines[1:]]. *)
Definition parse_header (hs : gmap str str) (line : str) : gmap str str :=
  if contains line (lit ":") then
    match split1 (lit ":") line with
    | [key; value] =>
        <[strip (lower (unicode_lower rt) key) := strip value]> hs
    | _ => hs
    end
  else hs.

(** The first statement of [_parse]: the header section and the body. *)
Definition sections (raw_request : str) : str * str :=
  if contains raw_request (CRLF ++ CRLF) then
    match split1 (CRLF ++ CRLF) raw_request with
    | [h; b] => (h, b)
    | _ => (raw_request, [])
    end
  else (raw_request, []).

(** [_parse]: the request object that [__init__] returns.  The unpacking
    of the first line raises [ValueError] unless it has exactly three
    tokens; the [except] clause swallows it, and the attributes stay as
    [init] set them, since nothing was assigned before.  The last
    statement, [body.encode('utf-8')], raises when the body holds a
    surrogate; the clause swallows that too, and [body] stays empty, after
    method, path and headers were assigned. *)
Definition _parse (raw_request : str) : t :=
  let '(headers_section, body) := sections raw_request in
  let header_lines := split CRLF headers_section in
  match header_lines with
  | first :: rest =>
      match split_ws first with
      | [m; p; _] =>
          {| method := m; path := p;
             headers := fold_left parse_header rest ∅;
             body := default [] (encode body) |}
      | _ => init
      end
  | [] => init
  end.

Definition accepts_gzip (self : t) : bool :=
  let accept_encoding := default [] (headers self !! lit "accept-encoding") in
  let encodings :=
    map (fun enc => lower (unicode_lower rt) (strip enc))
        (split (lit ",") accept_encoding) in
  bool_decide (lit "gzip" ∈ encodings).

End parse.
End HTTPRequest.

(** ** [class FileHandler] *)
Module FileHandler.
Import PyStr FS.

Record t := Build { base_dir : str }.

Section methods.
Context (rt : runtime).

Definition init (base_dir : str) : t :=
  {| base_dir := PosixPath.abspath (getcwd rt) base_dir |}.

Definition is_safe_path (self : t) (filepath : str) : bool :=
  let abs_path := PosixPath.abspath (getcwd rt) filepath in
  startswith abs_path (base_dir self).

Definition read_file (self : t) (filename : str) : io (option bytes * bool) :=
  let filepath := PosixPath.join (base_dir self) filename in
  if negb (is_safe_path self filepath) then Ret (None, false)
  else
    Open_rb filepath (fun r =>
      match r with
      | Some data => Ret (Some data, true)
      | None => Ret (None, false)
      end).

Definition write_file (self : t) (filename : str) (content : bytes) : io bool :=
  let filepath := PosixPath.join (base_dir self) filename in
  if negb (is_safe_path self filepath) then Ret false
  else
    Makedirs (PosixPath.dirname filepath) (fun made =>
      if made then
        Open_wb filepath (fun opened =>
          if opened then Write filepath content (fun written => Ret written)
          else Ret false)
      else Ret false).

End methods.
End FileHandler.

(** ** [class HTTPServer] and [handle_client] *)
Module HTTPServer.
Import PyStr FS.

Record t := Build { file_handler : FileHandler.t }.

(** [body: Union[str, bytes, None]] *)
Inductive body_arg :=
| BodyNone
| BodyStr (s : str)
| BodyBytes (b : bytes).

Section methods.
Context (rt : runtime).

Definition init (directory : str) : t :=
  {| file_handler := FileHandler.init rt directory |}.

Definition compress_content (content : bytes) : bytes :=
  gzip_compress rt content.

(** The first statement of [make_response]: the body as bytes; a string
    is encoded, which can raise. *)
Definition body_bytes (body : body_arg) : option bytes :=
  match body with
  | BodyNone => Some []
  | BodyStr s => encode s
  | BodyBytes b => Some b
  end.

(** The list [headers] when it is joined. *)
Definition header_lines (status content_type : str) (use_gzip : bool)
    (body : bytes) : list str :=
  let headers :=
    [lit "HTTP/1.1 " ++ status; lit "Content-Type: " ++ content_type] in
  let headers :=
    if use_gzip then headers ++ [lit "Content-Encoding: gzip"] else headers in
  headers ++ [lit "Content-Length: " ++ str_of_nat (length body); []; []].

(** [make_response]: it raises [UnicodeEncodeError] when the body is a
    string that does not encode, or when the header block does not. *)
Definition make_response (status : str) (body : body_arg)
    (content_type : str) (use_gzip : bool) : result bytes :=
  match body_bytes body with
  | None => Raise UnicodeEncodeError
  | Some body =>
      let body := if use_gzip then compress_content body else body in
      match encode (PyStr.join CRLF
                      (header_lines status content_type use_gzip body)) with
      | None => Raise UnicodeEncodeError
      | Some head => Return (head ++ body)
      end
  end.

(** A call that leaves [body], [content_type] and [use_gzip] at their
    defaults. *)
Definition make_response_default (status : str) : result bytes :=
  make_response status (BodyStr []) (lit "text/plain") false.

(** [try: ... except ValueError: return self.make_response("400 Bad
    Request")], around a statement of the POST branch that returns [r]. *)
Definition except_ValueError (r : result bytes) : result bytes :=
  match r with
  | Return response => Return response
  | Raise e =>
      if is_ValueError e then make_response_default (lit "400 Bad Request")
      else Raise e
  end.

(** [handle_file_request].  In the POST branch [int] raises [ValueError]
    on a value that is no number, and the [except] clause of the branch
    answers 400; [write_file] does not raise. *)
Definition handle_file_request (self : t) (request : HTTPRequest.t)
    : io (result bytes) :=
  let filename := drop 7 (HTTPRequest.path request) in
  let supports_gzip := HTTPRequest.accepts_gzip rt request in
  if bool_decide (filename = []) then
    Ret (make_response_default (lit "400 Bad Request"))
  else if str_eqb (HTTPRequest.method request) (lit "POST") then
    match int (unicode_int rt)
              (default (lit "0")
                 (HTTPRequest.headers request !! lit "content-length")) with
    | Some content_length =>
        if (content_length =? 0)%Z then
          Ret (except_ValueError
                 (make_response_default (lit "400 Bad Request")))
        else
          let content := slice_to content_length (HTTPRequest.body request) in
          bind (FileHandler.write_file rt (file_handler self) filename content)
            (fun ok =>
               if ok then
                 Ret (except_ValueError
                        (make_response_default (lit "201 Created")))
               else
                 Ret (except_ValueError
                        (make_response_default
                           (lit "500 Internal Server Error"))))
    | None => Ret (make_response_default (lit "400 Bad Request"))
    end
  else if str_eqb (HTTPRequest.method request) (lit "GET") then
    bind (FileHandler.read_file rt (file_handler self) filename)
      (fun '(content, success) =>
         match success, content with
         | true, Some content =>
             Ret (make_response (lit "200 OK") (BodyBytes content)
                    (lit "application/octet-stream") supports_gzip)
         | _, _ => Ret (make_response_default (lit "404 Not Found"))
         end)
  else Ret (make_response_default (lit "405 Method Not Allowed")).

(** The [try] block of [handle_request]. *)
Definition handle_request_try (self : t) (raw_request : str)
    : io (result bytes) :=
  let request := HTTPRequest._parse rt raw_request in
  let supports_gzip := HTTPRequest.accepts_gzip rt request in
  if startswith (HTTPRequest.path request) (lit "/files/") then
    handle_file_request self request
  else if startswith (HTTPRequest.path request) (lit "/echo/") then
    Ret (make_response (lit "200 OK")
           (BodyStr (drop 6 (HTTPRequest.path request)))
           (lit "text/plain") supports_gzip)
  else if str_eqb (HTTPRequest.path request) (lit "/") then
    Ret (make_response (lit "200 OK")
           (BodyStr (lit "Welcome to the root path!"))
           (lit "text/plain") supports_gzip)
  else if str_eqb (HTTPRequest.path request) (lit "/user-agent") then
    Ret (make_response (lit "200 OK")
           (BodyStr (default (lit "Missing User-Agent")
                       (HTTPRequest.headers request !! lit "user-agent")))
           (lit "text/plain") supports_gzip)
  else Ret (make_response_default (lit "404 Not Found")).

(** [handle_request]: [except Exception] catches whatever the [try] block
    raised and returns the response of [make_response("400 Bad
    Request")]. *)
Definition handle_request (self : t) (raw_request : str)
    : io (result bytes) :=
  bind (handle_request_try self raw_request)
    (fun r =>
       match r with
       | Return response => Ret (Return response)
       | Raise _ => Ret (make_response_default (lit "400 Bad Request"))
       end).

(** The calls that reached the client, and how [handle_client] ends. *)
Inductive socket_event :=
| Sendall (data : bytes)
| Close.

Inductive outcome :=
| Returned
| Raised (e : exception).

(** The [finally] clause: [close] is called whatever happened before, and
    an exception that it raises replaces the one under way. *)
Definition finally_close (client_socket : socket.t) (out : outcome)
    : outcome :=
  match socket.close client_socket with
  | Return _ => out
  | Raise e => Raised e
  end.

(** [handle_client]: [recv] and [decode] can raise before there is a
    request, [sendall] after there is a response; there is no [except]
    clause, so each of these exceptions leaves the function, after the
    socket was closed.  [Sendall] is in the list when the call was made,
    also when it raised. *)
Definition handle_client (client_socket : socket.t) (server : t)
    : io (list socket_event * outcome) :=
  match socket.recv client_socket BUFFER_SIZE with
  | Raise e => Ret ([Close], finally_close client_socket (Raised e))
  | Return data =>
      match decode data with
      | None =>
          Ret ([Close],
               finally_close client_socket (Raised UnicodeDecodeError))
      | Some request_data =>
          bind (handle_request server request_data)
            (fun r =>
               match r with
               | Raise e =>
                   Ret ([Close], finally_close client_socket (Raised e))
               | Return response =>
                   match socket.sendall client_socket response with
                   | Return _ =>
                       Ret ([Sendall response; Close],
                            finally_close client_socket Returned)
                   | Raise e =>
                       Ret ([Sendall response; Close],
                            finally_close client_socket (Raised e))
                   end
               end)
      end
  end.

End methods.
End HTTPServer.

(** ** Vocabulary of the properties *)
Module Props.
Import PyStr FS.

(** [header_lines[0]] of a raw request. *)
Definition first_line (raw_request : str) : str :=
  hd [] (split CRLF (fst (HTTPRequest.sections raw_request))).

(** A first line that does not unpack into method, path and version. *)
Definition malformed (raw_request : str) : Prop :=
  length (split_ws (first_line raw_request)) ≠ 3%nat.

(** The comma-separated tokens of a header value, in the claim's words:
    the pieces, free of commas, that give the value back when they are
    joined with commas; [gzip] is among them when one of them, trimmed and
    lower-cased, is [gzip]. *)
Definition gzip_token_spec (rt : runtime) (value : str) : Prop :=
  exists toks : list str,
    PyStr.join (lit ",") toks = value
    /\ Forall (fun tok : str => 44 ∉ tok) toks
    /\ exists tok, tok ∈ toks
         /\ lower (unicode_lower rt) (strip tok) = lit "gzip".

(** A resolved path that lies in the directory [base] (itself resolved,
    and not the root): the directory or something below it. *)
Definition inside (base p : str) : bool :=
  bool_decide (p = base) || startswith p (base ++ lit "/").

(** A plain component of a file name: not empty, not [.] or [..], and
    without a slash. *)
Definition plain (comp : str) : Prop :=
  comp ≠ [] /\ comp ≠ lit "." /\ comp ≠ lit ".." /\ 47 ∉ comp.

(** The slashes in front of an absolute path. *)
Abbreviation slashes k := (concat (replicate k PosixPath.sep)) (only parsing).

(** The values a computation can return, whatever the file system
    answers. *)
Inductive may_return {A} : io A -> A -> Prop :=
| may_ret a : may_return (Ret a) a
| may_open_rb p k r a : may_return (k r) a -> may_return (Open_rb p k) a
| may_makedirs p k r a : may_return (k r) a -> may_return (Makedirs p k) a
| may_open_wb p k r a : may_return (k r) a -> may_return (Open_wb p k) a
| may_write p c k r a : may_return (k r) a -> may_return (Write p c k) a.

(** The response opens with the status line of [status]. *)
Definition has_status (status : str) (response : bytes) : Prop :=
  utf8 (lit "HTTP/1.1 " ++ status ++ CRLF) `prefix_of` response.

Definition error_statuses : list str :=
  [lit "400 Bad Request"; lit "404 Not Found";
   lit "405 Method Not Allowed"; lit "500 Internal Server Error"].

(** An error response as it goes on the wire. *)
Definition bare_response (status : str) : bytes :=
  utf8 (lit "HTTP/1.1 " ++ status ++ CRLF
        ++ lit "Content-Type: text/plain" ++ CRLF
        ++ lit "Content-Length: 0" ++ CRLF ++ CRLF).

(** A response as it goes on the wire: the status line, [Content-Type],
    [Content-Encoding: gzip] when [gzip] is set, [Content-Length] with the
    number of bytes of [sent], the blank line, and [sent]. *)
Definition wire_response (status content_type : str) (gzip : bool)
    (sent : bytes) : bytes :=
  utf8 (lit "HTTP/1.1 " ++ status ++ CRLF
        ++ lit "Content-Type: " ++ content_type ++ CRLF
        ++ (if gzip then lit "Content-Encoding: gzip" ++ CRLF else [])
        ++ lit "Content-Length: " ++ str_of_nat (length sent) ++ CRLF ++ CRLF)
  ++ sent.

(** *** Concrete data for the examples *)

(** A stand-in for [gzip.compress]: the magic number of a gzip member,
    then the content. *)
Definition demo_compress (content : bytes) : bytes :=
  [x1f; x8b] ++ content.

Definition demo_runtime : runtime :=
  {| gzip_compress := demo_compress;
     unicode_lower := fun s => s;
     unicode_int := fun _ => None;
     getcwd := lit "/" |}.

(** The server started with [--directory /tmp]. *)
Definition demo_server : HTTPServer.t :=
  HTTPServer.init demo_runtime (lit "/tmp").

(** A request text from its lines. *)
Definition text (lines : list string) (body : string) : str :=
  flat_map (fun l => lit l ++ CRLF) lines ++ CRLF ++ lit body.

(** A disk with the directories [/], [/tmp] and [/tmpevil], the file
    [/tmpevil/x], and room for 4096 bytes more. *)
Definition demo_disk : disk :=
  {| files := {[ lit "/tmpevil/x" := utf8 (lit "secret") ]};
     dirs := {[ lit "/"; lit "/tmp"; lit "/tmpevil" ]};
     free := 4096 |}.


(** A client that has sent [incoming] and takes what it is sent: every
    call on its socket succeeds. *)
Definition peer (incoming : bytes) : socket.t :=
  {| socket.recv bufsize := Return (take bufsize incoming);
     socket.sendall _ := Return tt;
     socket.close := Return tt |}.

End Props.
(** * Properties *)

(** ** Strings *)
Section str_facts.
Import PyStr.

Lemma elem_of_rev {A} (x : A) (l : list A) : x ∈ rev l <-> x ∈ l.
Proof. rewrite !list_elem_of_In. symmetry. apply in_rev. Qed.

Lemma startswith_single c x s : startswith (x :: s) [c] = (c =? x).
Proof. simpl. by rewrite andb_true_r. Qed.

Lemma split_go_cons c x s cur :
  split_go [c] (x :: s) cur 0 =
    if c =? x then rev cur :: split_go [c] s [] 0
    else split_go [c] s (x :: cur) 0.
Proof. cbn [split_go]. by rewrite startswith_single. Qed.

Lemma split_go_not_nil c s cur : split_go [c] s cur 0 ≠ [].
Proof.
  revert cur; induction s as [|x s IH]; intros cur; [done|].
  rewrite split_go_cons. destruct (c =? x); [done | apply IH].
Qed.

Lemma join_cons sep x l : l ≠ [] -> PyStr.join sep (x :: l) = x ++ sep ++ PyStr.join sep l.
Proof. by destruct l. Qed.

(** Joining the pieces of [split] gives the string back. *)
Lemma join_split_go c s cur :
  PyStr.join [c] (split_go [c] s cur 0) = rev cur ++ s.
Proof.
  revert cur; induction s as [|x s IH]; intros cur.
  - simpl. by rewrite app_nil_r.
  - rewrite split_go_cons. destruct (N.eqb_spec c x) as [->|Hne].
    + rewrite join_cons by apply split_go_not_nil. by rewrite IH.
    + rewrite IH. simpl. by rewrite <- app_assoc.
Qed.

(** No piece of [split] holds the separator. *)
Lemma split_go_free c s cur :
  c ∉ cur -> Forall (fun tok : str => c ∉ tok) (split_go [c] s cur 0).
Proof.
  revert cur; induction s as [|x s IH]; intros cur Hcur.
  - constructor; [|constructor]. by rewrite elem_of_rev.
  - rewrite split_go_cons. destruct (N.eqb_spec c x) as [->|Hne].
    + constructor; [by rewrite elem_of_rev|]. apply IH. apply not_elem_of_nil.
    + apply IH. rewrite elem_of_cons. intros [?|?]; congruence.
Qed.

Lemma split_go_app_free c t s cur :
  c ∉ t -> split_go [c] (t ++ s) cur 0 = split_go [c] s (rev t ++ cur) 0.
Proof.
  revert cur; induction t as [|x t IH]; intros cur Ht; [done|].
  rewrite not_elem_of_cons in Ht. destruct Ht as [Hx Ht].
  rewrite <- app_comm_cons, split_go_cons.
  destruct (N.eqb_spec c x) as [->|_]; [done|].
  rewrite IH by done. simpl. by rewrite <- app_assoc.
Qed.

(** [split] undoes [join] on pieces without the separator. *)
Lemma split_go_join c toks cur :
  toks ≠ [] -> Forall (fun tok : str => c ∉ tok) toks ->
  split_go [c] (PyStr.join [c] toks) cur 0 =
    match toks with
    | [] => []
    | t :: toks' => (rev cur ++ t) :: toks'
    end.
Proof.
  revert cur; induction toks as [|t toks IH]; intros cur Hne Hfree; [done|].
  apply Forall_cons in Hfree as [Ht Hfree].
  destruct toks as [|t2 toks].
  - simpl. rewrite <- (app_nil_r t) at 1. rewrite split_go_app_free by done.
    simpl. by rewrite rev_app_distr, rev_involutive.
  - rewrite join_cons by done. rewrite split_go_app_free by done.
    change ([c] ++ ?l) with (c :: l). rewrite split_go_cons, N.eqb_refl.
    rewrite rev_app_distr, rev_involutive. f_equal.
    rewrite IH by done. done.
Qed.

Lemma split_join c toks :
  toks ≠ [] -> Forall (fun tok : str => c ∉ tok) toks ->
  split [c] (PyStr.join [c] toks) = toks.
Proof.
  intros Hne Hfree. unfold split. rewrite split_go_join by done.
  by destruct toks.
Qed.

Lemma join_split c s : PyStr.join [c] (split [c] s) = s.
Proof. unfold split. by rewrite join_split_go. Qed.

Lemma split_free c s : Forall (fun tok : str => c ∉ tok) (split [c] s).
Proof. apply split_go_free, not_elem_of_nil. Qed.

End str_facts.

(** ** [HTTPRequest] *)
Section request_facts.
Import PyStr Props.
Context (rt : runtime).

Lemma accepts_gzip_unfold (r : HTTPRequest.t) :
  HTTPRequest.accepts_gzip rt r = true <->
  exists tok,
    tok ∈ split (lit ",")
            (default [] (HTTPRequest.headers r !! lit "accept-encoding"))
    /\ lower (unicode_lower rt) (strip tok) = lit "gzip".
Proof.
  unfold HTTPRequest.accepts_gzip. rewrite bool_decide_eq_true.
  rewrite list_elem_of_In, in_map_iff.
  split; intros (tok & H1 & H2); exists tok.
  - by rewrite list_elem_of_In.
  - by rewrite <- list_elem_of_In.
Qed.

(** C5: [accepts_gzip] holds exactly when [gzip] is one of the
    comma-separated tokens of the [accept-encoding] value, each token
    trimmed and lower-cased before the comparison; it is false when the
    header is absent and when the value is [gzip2], which only contains
    [gzip] as a substring. *)
Theorem accepts_gzip_exact_token :
  (forall r : HTTPRequest.t,
     HTTPRequest.accepts_gzip rt r = true <->
     gzip_token_spec rt
       (default [] (HTTPRequest.headers r !! lit "accept-encoding")))
  /\ (forall m p hs b,
        HTTPRequest.accepts_gzip rt
          (HTTPRequest.Build m p (delete (lit "accept-encoding") hs) b)
        = false)
  /\ (forall m p hs b,
        HTTPRequest.accepts_gzip rt
          (HTTPRequest.Build m p
             (<[lit "accept-encoding" := lit "gzip2"]> hs) b)
        = false).
Proof.
  split; [|split].
  - intros r. rewrite accepts_gzip_unfold. unfold gzip_token_spec.
    set (value := default [] _). split.
    + intros (tok & Hin & Heq).
      exists (split (lit ",") value). split; [apply join_split|].
      split; [apply split_free|]. by exists tok.
    + intros (toks & Hjoin & Hfree & tok & Hin & Heq).
      exists tok. split; [|done].
      rewrite <- Hjoin. change (lit ",") with [44].
      rewrite split_join; [done | | done].
      intros ->. by apply elem_of_nil in Hin.
  - intros m p hs b. unfold HTTPRequest.accepts_gzip. cbn [HTTPRequest.headers].
    by rewrite lookup_delete_eq.
  - intros m p hs b. unfold HTTPRequest.accepts_gzip. cbn [HTTPRequest.headers].
    by rewrite lookup_insert_eq.
Qed.

End request_facts.

Section parse_facts.
Import PyStr Props.
Context (rt : runtime).

Lemma split_go_never_nil sep s cur k : split_go sep s cur k ≠ [].
Proof.
  revert cur k; induction s as [|x s IH]; intros cur k; [done|].
  cbn [split_go]. destruct k; [|apply IH].
  destruct (startswith _ _); [done | apply IH].
Qed.

(** A malformed first line makes [_parse] return the object as [__init__]
    left it. *)
Lemma parse_malformed raw :
  malformed raw -> HTTPRequest._parse rt raw = HTTPRequest.init.
Proof.
  unfold malformed, first_line, HTTPRequest._parse.
  destruct (HTTPRequest.sections raw) as [headers_section body].
  cbn [fst]. unfold split.
  destruct (split_go CRLF headers_section [] 0) as [|first rest] eqn:Hl.
  { by apply split_go_never_nil in Hl. }
  cbn [hd]. intros Hlen.
  destruct (split_ws first) as [|m [|p [|v [|? ?]]]]; try done.
Qed.

(** C8: when the first line is malformed, parsing aborts as a whole:
    method, path, headers and body of the request object are all empty,
    and the gzip-acceptance predicate is false on it, whatever header
    lines the text holds. *)
Theorem malformed_parse_aborts raw :
  malformed raw ->
  let request := HTTPRequest._parse rt raw in
  HTTPRequest.method request = []
  /\ HTTPRequest.path request = []
  /\ HTTPRequest.headers request = ∅
  /\ HTTPRequest.body request = []
  /\ HTTPRequest.accepts_gzip rt request = false.
Proof.
  intros Hbad. cbn zeta. rewrite (parse_malformed raw Hbad). done.
Qed.

End parse_facts.

(** C8 at a request of two tokens that carries an [Accept-Encoding: gzip]
    line. *)
Lemma malformed_parse_aborts_witness :
  let raw := Props.text ["GET /"; "Accept-Encoding: gzip"]%string "" in
  PyStr.contains raw (PyStr.lit "Accept-Encoding: gzip") = true
  /\ Props.malformed raw
  /\ HTTPRequest.headers (HTTPRequest._parse Props.demo_runtime raw) = ∅
  /\ HTTPRequest.accepts_gzip Props.demo_runtime
       (HTTPRequest._parse Props.demo_runtime raw) = false.
Proof.
  cbn zeta.
  assert (Hbad : Props.malformed
                   (Props.text ["GET /"; "Accept-Encoding: gzip"]%string "")).
  { unfold Props.malformed. vm_compute. lia. }
  split; [vm_compute; reflexivity|]. split; [exact Hbad|].
  pose proof (malformed_parse_aborts Props.demo_runtime _ Hbad) as H.
  cbn zeta in H. split; [apply H | apply H].
Defined.

(** ** Decimal lengths *)
Section decimal_facts.
Import PyStr.

Lemma digit_isdigit k : (k < 10)%nat -> isdigit (digit k) = true.
Proof.
  intros Hk. unfold isdigit, digit.
  apply andb_true_intro; split; apply N.leb_le; lia.
Qed.

Lemma digit_value k : Z.of_N (digit k - 48) = Z.of_nat k.
Proof. unfold digit. lia. Qed.

Lemma digits_go_digit k t a b :
  (k < 10)%nat ->
  digits_go (digit k :: t) a b = digits_go t (10 * a + Z.of_nat k)%Z true.
Proof.
  intros Hk. cbn [digits_go]. by rewrite digit_isdigit, digit_value.
Qed.

(** [str_of_nat_go] puts the decimal digits of [n] before [acc]. *)
Lemma str_of_nat_go_spec fuel : forall n acc,
  (n <= fuel)%nat ->
  exists ds,
    str_of_nat_go fuel n acc = ds ++ acc
    /\ ds ≠ []
    /\ Forall (fun c => isdigit c = true) ds
    /\ forall t a b,
         digits_go (ds ++ t) a b =
         digits_go t (a * 10 ^ Z.of_nat (length ds) + Z.of_nat n)%Z true.
Proof.
  induction fuel as [|fuel IH]; intros n acc Hn.
  - assert (n = 0)%nat as -> by lia. exists [digit 0]. cbn [str_of_nat_go].
    split; [done|]. split; [done|]. split.
    + repeat constructor.
    + intros t a b. cbn [app]. rewrite digits_go_digit by lia.
      f_equal. cbn [length]. lia.
  - cbn [str_of_nat_go].
    assert (Hmod : (n mod 10 < 10)%nat) by (apply Nat.mod_upper_bound; lia).
    destruct (Nat.ltb_spec n 10) as [Hlt|Hge].
    + exists [digit (n mod 10)]. split; [done|]. split; [done|]. split.
      * constructor; [by apply digit_isdigit | constructor].
      * intros t a b. cbn [app]. rewrite digits_go_digit by done.
        rewrite Nat.mod_small by done. f_equal. cbn [length]. lia.
    + pose proof (Nat.div_mod_eq n 10) as Hdiv.
      destruct (IH (n / 10)%nat (digit (n mod 10) :: acc)) as (ds & Heq & Hne & Hds & Hgo).
      { assert (n / 10 < n)%nat by (apply Nat.div_lt; lia). lia. }
      exists (ds ++ [digit (n mod 10)]). split.
      { rewrite Heq. by rewrite <- app_assoc. }
      split. { by destruct ds. }
      split. { apply Forall_app. split; [done|]. constructor; [by apply digit_isdigit | constructor]. }
      intros t a b. rewrite <- app_assoc. cbn [app]. rewrite Hgo.
      rewrite digits_go_digit by done. f_equal.
      rewrite length_app. cbn [length].
      replace (Z.of_nat (length ds + 1)) with (Z.of_nat (length ds) + 1)%Z by lia.
      rewrite Z.pow_add_r by lia. lia.
Qed.

Lemma isdigit_bounds c : isdigit c = true -> 48 <= c <= 57.
Proof.
  unfold isdigit. intros [H1 H2]%andb_true_iff.
  apply N.leb_le in H1, H2. lia.
Qed.

Lemma dropwhile_space_digits ds :
  Forall (fun c => isdigit c = true) ds -> dropwhile c_isspace ds = ds.
Proof.
  destruct 1 as [|c ds Hc _]; [done|]. cbn [dropwhile].
  apply isdigit_bounds in Hc. unfold c_isspace.
  replace (c <=? 13) with false by (symmetry; apply N.leb_gt; lia).
  replace (c =? 32) with false by (symmetry; apply N.eqb_neq; lia).
  by rewrite andb_false_r.
Qed.

Lemma int_ascii_digits ds :
  ds ≠ [] -> Forall (fun c => isdigit c = true) ds ->
  int_ascii ds = digits_go ds 0%Z false.
Proof.
  intros Hne Hds. unfold int_ascii.
  rewrite (dropwhile_space_digits ds Hds).
  rewrite dropwhile_space_digits by (by apply Forall_rev).
  rewrite rev_involutive. destruct Hds as [|c ds Hc _]; [done|].
  apply isdigit_bounds in Hc.
  destruct (N.eqb_spec c 43); [lia|]. destruct (N.eqb_spec c 45); [lia|]. done.
Qed.

Lemma isascii_digits ds :
  Forall (fun c => isdigit c = true) ds -> isascii ds = true.
Proof.
  unfold isascii. induction 1 as [|c ds Hc _ IH]; [done|].
  cbn [forallb]. rewrite IH. apply isdigit_bounds in Hc.
  rewrite andb_true_r. apply N.ltb_lt. lia.
Qed.

(** [int(str(n))] is [n]. *)
Lemma int_str_of_nat unicode_int n :
  int unicode_int (str_of_nat n) = Some (Z.of_nat n).
Proof.
  unfold int, str_of_nat.
  destruct (str_of_nat_go_spec n n [] (le_n n)) as (ds & Heq & Hne & Hds & Hgo).
  rewrite Heq, app_nil_r. rewrite isascii_digits, int_ascii_digits by done.
  rewrite <- (app_nil_r ds), Hgo. cbn [digits_go]. f_equal; lia.
Qed.

End decimal_facts.
(** ** The UTF-8 codec *)
Section codec_facts.
Import PyStr Props.

Lemma decode_go_unfold b0 r0 :
  decode_go (b0 :: r0) =
    if b0 <? 0x80 then cons b0 <$> decode_go r0
    else if (0xC2 <=? b0) && (b0 <=? 0xDF) then
      match r0 with
      | b1 :: r1 =>
          if is_cont b1
          then cons ((b0 - 0xC0) * 64 + (b1 - 0x80)) <$> decode_go r1
          else None
      | _ => None
      end
    else if (0xE0 <=? b0) && (b0 <=? 0xEF) then
      match r0 with
      | b1 :: b2 :: r2 =>
          let c := (b0 - 0xE0) * 4096 + (b1 - 0x80) * 64 + (b2 - 0x80) in
          if is_cont b1 && is_cont b2 && (0x800 <=? c)
             && negb ((0xD800 <=? c) && (c <=? 0xDFFF))
          then cons c <$> decode_go r2
          else None
      | _ => None
      end
    else if (0xF0 <=? b0) && (b0 <=? 0xF4) then
      match r0 with
      | b1 :: b2 :: b3 :: r3 =>
          let c := (b0 - 0xF0) * 262144 + (b1 - 0x80) * 4096
                   + (b2 - 0x80) * 64 + (b3 - 0x80) in
          if is_cont b1 && is_cont b2 && is_cont b3
             && (0x10000 <=? c) && (c <=? 0x10FFFF)
          then cons c <$> decode_go r3
          else None
      | _ => None
      end
    else None.
Proof. reflexivity. Qed.

Lemma utf8_app a b : utf8 (a ++ b) = utf8 a ++ utf8 b.
Proof. apply flat_map_app. Qed.

Lemma encode_Some s b :
  encode s = Some b <-> forallb is_scalar s = true /\ b = utf8 s.
Proof.
  unfold encode. destruct (forallb is_scalar s).
  - split; [by intros [= <-] | by intros [_ ->]].
  - split; [done | by intros [? _]].
Qed.

Lemma encode_is_Some s : is_Some (encode s) <-> forallb is_scalar s = true.
Proof.
  unfold encode. destruct (forallb is_scalar s).
  - split; [done | by eexists].
  - split; [by intros [? ?] | done].
Qed.

Lemma encode_scalar s : forallb is_scalar s = true -> encode s = Some (utf8 s).
Proof. intros H. by apply encode_Some. Qed.

Lemma encode_None s : encode s = None <-> forallb is_scalar s = false.
Proof. unfold encode. by destruct (forallb is_scalar s). Qed.

Lemma is_scalar_intro c :
  c < 0xD800 \/ 0xDFFF < c <= 0x10FFFF -> is_scalar c = true.
Proof.
  unfold is_scalar. intros [H|[H1 H2]].
  - by rewrite (proj2 (N.ltb_lt _ _) H).
  - rewrite (proj2 (N.ltb_lt _ _) H1), (proj2 (N.leb_le _ _) H2).
    apply orb_true_r.
Qed.

Lemma divmod_unique a q r k :
  r < k -> a = k * q + r -> a / k = q /\ a mod k = r.
Proof.
  intros Hr Ha. split; symmetry.
  - by apply (N.div_unique a k q r).
  - by apply (N.mod_unique a k q r).
Qed.

Lemma to_N_byte_of_N n : n < 256 -> Byte.to_N (byte_of_N n) = n.
Proof.
  intros Hn. unfold byte_of_N.
  destruct (Byte.of_N n) as [b|] eqn:Hb; [by apply Byte.to_of_N|].
  apply Byte.of_N_None_iff in Hb. lia.
Qed.

Lemma is_cont_bounds b : is_cont b = true -> 0x80 <= b <= 0xBF.
Proof.
  unfold is_cont. intros [H1 H2]%andb_true_iff.
  apply N.leb_le in H1, H2. lia.
Qed.

Lemma range_bounds lo hi b : (lo <=? b) && (b <=? hi) = true -> lo <= b <= hi.
Proof. intros [H1 H2]%andb_true_iff. apply N.leb_le in H1, H2. lia. Qed.

Lemma encode_char_1 b0 : b0 < 0x80 -> map Byte.to_N (encode_char b0) = [b0].
Proof.
  intros H. unfold encode_char. rewrite (proj2 (N.ltb_lt _ _) H). cbn [map].
  rewrite to_N_byte_of_N by lia. done.
Qed.

Lemma encode_char_2 b0 b1 :
  0xC2 <= b0 <= 0xDF -> 0x80 <= b1 <= 0xBF ->
  map Byte.to_N (encode_char ((b0 - 0xC0) * 64 + (b1 - 0x80))) = [b0; b1].
Proof.
  intros H0 H1. set (c := (b0 - 0xC0) * 64 + (b1 - 0x80)).
  destruct (divmod_unique c (b0 - 0xC0) (b1 - 0x80) 64) as [Hq Hr];
    [lia | unfold c; lia |].
  unfold encode_char.
  rewrite (proj2 (N.ltb_ge c 0x80)) by (unfold c; lia).
  rewrite (proj2 (N.ltb_lt c 0x800)) by (unfold c; lia).
  cbn [map]. rewrite Hq, Hr, !to_N_byte_of_N by lia. f_equal; [lia|].
  f_equal. lia.
Qed.

Lemma encode_char_3 b0 b1 b2 :
  0xE0 <= b0 <= 0xEF -> 0x80 <= b1 <= 0xBF -> 0x80 <= b2 <= 0xBF ->
  0x800 <= (b0 - 0xE0) * 4096 + (b1 - 0x80) * 64 + (b2 - 0x80) ->
  map Byte.to_N
    (encode_char ((b0 - 0xE0) * 4096 + (b1 - 0x80) * 64 + (b2 - 0x80)))
  = [b0; b1; b2].
Proof.
  intros H0 H1 H2 Hc.
  set (c := (b0 - 0xE0) * 4096 + (b1 - 0x80) * 64 + (b2 - 0x80)) in *.
  destruct (divmod_unique c ((b0 - 0xE0) * 64 + (b1 - 0x80)) (b2 - 0x80) 64)
    as [Hq1 Hr1]; [lia | unfold c; lia |].
  destruct (divmod_unique ((b0 - 0xE0) * 64 + (b1 - 0x80))
              (b0 - 0xE0) (b1 - 0x80) 64) as [_ Hr2]; [lia | lia |].
  destruct (divmod_unique c (b0 - 0xE0) ((b1 - 0x80) * 64 + (b2 - 0x80)) 4096)
    as [Hq3 _]; [lia | unfold c; lia |].
  unfold encode_char.
  rewrite (proj2 (N.ltb_ge c 0x80)) by lia.
  rewrite (proj2 (N.ltb_ge c 0x800)) by lia.
  rewrite (proj2 (N.ltb_lt c 0x10000)) by (unfold c; lia).
  cbn [map]. rewrite Hq3, Hq1, Hr2, Hr1, !to_N_byte_of_N by lia.
  repeat (f_equal; try lia).
Qed.

Lemma encode_char_4 b0 b1 b2 b3 :
  0xF0 <= b0 <= 0xF4 -> 0x80 <= b1 <= 0xBF -> 0x80 <= b2 <= 0xBF ->
  0x80 <= b3 <= 0xBF ->
  0x10000 <= (b0 - 0xF0) * 262144 + (b1 - 0x80) * 4096
             + (b2 - 0x80) * 64 + (b3 - 0x80) ->
  map Byte.to_N
    (encode_char ((b0 - 0xF0) * 262144 + (b1 - 0x80) * 4096
                  + (b2 - 0x80) * 64 + (b3 - 0x80)))
  = [b0; b1; b2; b3].
Proof.
  intros H0 H1 H2 H3 Hc.
  set (c := (b0 - 0xF0) * 262144 + (b1 - 0x80) * 4096
            + (b2 - 0x80) * 64 + (b3 - 0x80)) in *.
  set (w := b0 - 0xF0) in *. set (x := b1 - 0x80) in *.
  set (y := b2 - 0x80) in *. set (z := b3 - 0x80) in *.
  destruct (divmod_unique c (w * 4096 + x * 64 + y) z 64)
    as [Hq1 Hr1]; [lia | unfold c; lia |].
  destruct (divmod_unique (w * 4096 + x * 64 + y) (w * 64 + x) y 64)
    as [_ Hr2]; [lia | lia |].
  destruct (divmod_unique c (w * 64 + x) (y * 64 + z) 4096)
    as [Hq3 _]; [lia | unfold c; lia |].
  destruct (divmod_unique (w * 64 + x) w x 64) as [_ Hr4]; [lia | lia |].
  destruct (divmod_unique c w (x * 4096 + y * 64 + z) 262144)
    as [Hq5 _]; [lia | unfold c; lia |].
  unfold encode_char.
  rewrite (proj2 (N.ltb_ge c 0x80)) by lia.
  rewrite (proj2 (N.ltb_ge c 0x800)) by lia.
  rewrite (proj2 (N.ltb_ge c 0x10000)) by lia.
  cbn [map]. rewrite Hq5, Hq3, Hr4, Hq1, Hr2, Hr1.
  rewrite !to_N_byte_of_N by lia.
  repeat (f_equal; try lia).
Qed.

(** Encoding what strict decoding returned gives the bytes back. *)
Lemma utf8_decode_go n : forall l s,
  (length l <= n)%nat -> decode_go l = Some s ->
  map Byte.to_N (utf8 s) = l.
Proof.
  induction n as [|n IH]; intros l s Hl.
  { destruct l; [|cbn in Hl; lia]. by intros [= <-]. }
  destruct l as [|b0 r0]; [by intros [= <-]|]. cbn [length] in Hl.
  rewrite decode_go_unfold.
  destruct (N.ltb_spec b0 0x80) as [Hlow|Hhigh].
  { destruct (decode_go r0) as [s'|] eqn:Hr; [|done]. intros [= <-].
    change (utf8 (b0 :: s')) with (encode_char b0 ++ utf8 s').
    rewrite map_app, encode_char_1 by done. cbn [app]. f_equal.
    apply IH; [lia | done]. }
  destruct ((0xC2 <=? b0) && (b0 <=? 0xDF)) eqn:H2.
  { apply range_bounds in H2. destruct r0 as [|b1 r1]; [done|].
    destruct (is_cont b1) eqn:Hc1; [|done]. apply is_cont_bounds in Hc1.
    destruct (decode_go r1) as [s'|] eqn:Hr; [|done]. intros [= <-].
    match goal with |- map _ (utf8 (?c :: _)) = _ =>
      change (utf8 (c :: s')) with (encode_char c ++ utf8 s') end.
    rewrite map_app, encode_char_2 by done. cbn [app]. do 2 f_equal.
    apply IH; [cbn [length] in Hl; lia | done]. }
  destruct ((0xE0 <=? b0) && (b0 <=? 0xEF)) eqn:H3.
  { apply range_bounds in H3. destruct r0 as [|b1 [|b2 r2]]; [done|done|].
    cbn zeta.
    destruct (is_cont b1) eqn:Hc1; [|done]. apply is_cont_bounds in Hc1.
    destruct (is_cont b2) eqn:Hc2; [|done]. apply is_cont_bounds in Hc2.
    cbn [andb].
    destruct (N.leb_spec 0x800
                ((b0 - 0xE0) * 4096 + (b1 - 0x80) * 64 + (b2 - 0x80)))
      as [Hmin|]; [|done]. cbn [andb].
    destruct (negb _); [|done].
    destruct (decode_go r2) as [s'|] eqn:Hr; [|done]. intros [= <-].
    match goal with |- map _ (utf8 (?c :: _)) = _ =>
      change (utf8 (c :: s')) with (encode_char c ++ utf8 s') end.
    rewrite map_app, encode_char_3 by done. cbn [app]. do 3 f_equal.
    apply IH; [cbn [length] in Hl; lia | done]. }
  destruct ((0xF0 <=? b0) && (b0 <=? 0xF4)) eqn:H4; [|done].
  apply range_bounds in H4.
  destruct r0 as [|b1 [|b2 [|b3 r3]]]; [done|done|done|]. cbn zeta.
  destruct (is_cont b1) eqn:Hc1; [|done]. apply is_cont_bounds in Hc1.
  destruct (is_cont b2) eqn:Hc2; [|done]. apply is_cont_bounds in Hc2.
  destruct (is_cont b3) eqn:Hc3; [|done]. apply is_cont_bounds in Hc3.
  cbn [andb].
  destruct (N.leb_spec 0x10000
              ((b0 - 0xF0) * 262144 + (b1 - 0x80) * 4096
               + (b2 - 0x80) * 64 + (b3 - 0x80))) as [Hmin|]; [|done].
  cbn [andb]. destruct (_ <=? 0x10FFFF); [|done].
  destruct (decode_go r3) as [s'|] eqn:Hr; [|done]. intros [= <-].
  match goal with |- map _ (utf8 (?c :: _)) = _ =>
    change (utf8 (c :: s')) with (encode_char c ++ utf8 s') end.
  rewrite map_app, encode_char_4 by done. cbn [app]. do 4 f_equal.
  apply IH; [cbn [length] in Hl; lia | done].
Qed.

Lemma utf8_decode data s : decode data = Some s -> utf8 s = data.
Proof.
  unfold decode. intros H.
  apply (utf8_decode_go (length (map Byte.to_N data)) _ _ (le_n _)) in H.
  revert H. generalize (utf8 s). clear s.
  induction data as [|d data IH]; intros [|e es]; cbn [map]; try done.
  intros [= Hd Hes]. f_equal; [|by apply IH].
  apply (f_equal Byte.of_N) in Hd. rewrite !Byte.of_to_N in Hd. congruence.
Qed.

(** What strict decoding returns holds scalar values only, so that it
    encodes. *)
Lemma decode_go_scalar n : forall l s,
  (length l <= n)%nat -> decode_go l = Some s -> forallb is_scalar s = true.
Proof.
  induction n as [|n IH]; intros l s Hl.
  { destruct l; [|cbn in Hl; lia]. by intros [= <-]. }
  destruct l as [|b0 r0]; [by intros [= <-]|]. cbn [length] in Hl.
  rewrite decode_go_unfold.
  destruct (N.ltb_spec b0 0x80) as [Hlow|Hhigh].
  { destruct (decode_go r0) as [s'|] eqn:Hr; [|done]. intros [= <-].
    cbn [forallb]. rewrite (IH r0 s') by (done || lia).
    rewrite is_scalar_intro by lia. done. }
  destruct ((0xC2 <=? b0) && (b0 <=? 0xDF)) eqn:H2.
  { apply range_bounds in H2. destruct r0 as [|b1 r1]; [done|].
    destruct (is_cont b1) eqn:Hc1; [|done]. apply is_cont_bounds in Hc1.
    destruct (decode_go r1) as [s'|] eqn:Hr; [|done]. intros [= <-].
    cbn [forallb]. cbn [length] in Hl. rewrite (IH r1 s') by (done || lia).
    rewrite is_scalar_intro by lia. done. }
  destruct ((0xE0 <=? b0) && (b0 <=? 0xEF)) eqn:H3.
  { apply range_bounds in H3. destruct r0 as [|b1 [|b2 r2]]; [done|done|].
    cbn zeta.
    destruct (is_cont b1) eqn:Hc1; [|done]. apply is_cont_bounds in Hc1.
    destruct (is_cont b2) eqn:Hc2; [|done]. apply is_cont_bounds in Hc2.
    cbn [andb].
    destruct (0x800 <=? _); [|done]. cbn [andb].
    destruct (negb _) eqn:Hsur; [|done].
    destruct (decode_go r2) as [s'|] eqn:Hr; [|done]. intros [= <-].
    cbn [forallb]. cbn [length] in Hl. rewrite (IH r2 s') by (done || lia).
    rewrite andb_true_r. apply negb_true_iff, andb_false_iff in Hsur.
    apply is_scalar_intro.
    destruct Hsur as [Hs|Hs]; [apply N.leb_gt in Hs; lia|].
    apply N.leb_gt in Hs. right. lia. }
  destruct ((0xF0 <=? b0) && (b0 <=? 0xF4)) eqn:H4; [|done].
  apply range_bounds in H4.
  destruct r0 as [|b1 [|b2 [|b3 r3]]]; [done|done|done|]. cbn zeta.
  destruct (is_cont b1) eqn:Hc1; [|done].
  destruct (is_cont b2) eqn:Hc2; [|done].
  destruct (is_cont b3) eqn:Hc3; [|done].
  cbn [andb].
  destruct (N.leb_spec 0x10000
              ((b0 - 0xF0) * 262144 + (b1 - 0x80) * 4096
               + (b2 - 0x80) * 64 + (b3 - 0x80))) as [Hmin|]; [|done].
  cbn [andb].
  destruct (N.leb_spec ((b0 - 0xF0) * 262144 + (b1 - 0x80) * 4096
               + (b2 - 0x80) * 64 + (b3 - 0x80)) 0x10FFFF) as [Hmax|]; [|done].
  destruct (decode_go r3) as [s'|] eqn:Hr; [|done]. intros [= <-].
  cbn [forallb]. cbn [length] in Hl. rewrite (IH r3 s') by (done || lia).
  rewrite is_scalar_intro by lia. done.
Qed.

(** A decoded text encodes, and to the bytes it was decoded from. *)
Lemma encode_decode data s : decode data = Some s -> encode s = Some data.
Proof.
  intros H. apply encode_Some. split; [|symmetry; by apply utf8_decode].
  apply (decode_go_scalar (length (map Byte.to_N data)) _ _ (le_n _) H).
Qed.

End codec_facts.

(** ** [make_response] *)
Section response_facts.
Import PyStr Props HTTPServer.
Context (rt : runtime).

(** The header block: status line, [Content-Type], [Content-Encoding]
    under gzip, [Content-Length], and the blank line. *)
Lemma header_block status content_type use_gzip body :
  PyStr.join CRLF (header_lines status content_type use_gzip body) =
    (lit "HTTP/1.1 " ++ status) ++ CRLF
    ++ ((lit "Content-Type: " ++ content_type) ++ CRLF
        ++ (if use_gzip then lit "Content-Encoding: gzip" ++ CRLF else []))
    ++ lit "Content-Length: " ++ str_of_nat (length body) ++ CRLF ++ CRLF.
Proof.
  unfold header_lines. destruct use_gzip; cbn [app PyStr.join];
    rewrite ?app_nil_r, <- ?app_assoc; reflexivity.
Qed.

Lemma str_of_nat_scalar n : forallb is_scalar (str_of_nat n) = true.
Proof.
  unfold str_of_nat.
  destruct (str_of_nat_go_spec n n [] (le_n n)) as (ds & -> & _ & Hds & _).
  rewrite app_nil_r. induction Hds as [|c ds Hc _ IH]; [done|].
  cbn [forallb]. rewrite IH, andb_true_r.
  apply isdigit_bounds in Hc. apply is_scalar_intro. lia.
Qed.

(** The header block encodes exactly when the status and the content type
    do. *)
Lemma header_scalar status content_type use_gzip body :
  forallb is_scalar
    (PyStr.join CRLF (header_lines status content_type use_gzip body))
  = forallb is_scalar status && forallb is_scalar content_type.
Proof.
  rewrite header_block.
  destruct use_gzip; rewrite !forallb_app, str_of_nat_scalar;
    cbn; by rewrite ?andb_true_r.
Qed.

(** [make_response] raises exactly when the body, the status or the
    content type holds a surrogate; otherwise it returns the framed
    response. *)
Lemma make_response_spec status body content_type use_gzip :
  make_response rt status body content_type use_gzip =
    match body_bytes body with
    | Some raw =>
        if forallb is_scalar status && forallb is_scalar content_type
        then Return (wire_response status content_type use_gzip
                       (if use_gzip then gzip_compress rt raw else raw))
        else Raise UnicodeEncodeError
    | None => Raise UnicodeEncodeError
    end.
Proof.
  unfold make_response. destruct (body_bytes body) as [raw|]; [|done].
  cbn zeta. unfold encode. rewrite header_scalar.
  destruct (_ && _); [|done].
  unfold wire_response, compress_content. rewrite header_block.
  rewrite <- !app_assoc. reflexivity.
Qed.

(** C6: in every response of [make_response] the value of the
    [Content-Length] header, which closes the header block, is the number
    of bytes that follow the block; these bytes are the body converted to
    bytes ([None] as empty, a string encoded), compressed when gzip is
    applied.  [make_response] returns such a response whenever the status,
    the content type and a string body encode. *)
Theorem content_length_exact status body content_type use_gzip :
  (forall response,
     make_response rt status body content_type use_gzip = Return response ->
     exists raw,
       match body with
       | BodyNone => raw = []
       | BodyStr s => raw = utf8 s
       | BodyBytes b => raw = b
       end
       /\ let sent := if use_gzip then gzip_compress rt raw else raw in
          let head :=
            lit "HTTP/1.1 " ++ status ++ CRLF
            ++ lit "Content-Type: " ++ content_type ++ CRLF
            ++ (if use_gzip then lit "Content-Encoding: gzip" ++ CRLF
                else []) in
          response
          = utf8 (head ++ lit "Content-Length: " ++ str_of_nat (length sent)
                  ++ CRLF ++ CRLF)
            ++ sent
          /\ int (unicode_int rt) (str_of_nat (length sent))
             = Some (Z.of_nat (length sent)))
  /\ (is_Some (encode status) -> is_Some (encode content_type) ->
      (forall s, body = BodyStr s -> is_Some (encode s)) ->
      exists response,
        make_response rt status body content_type use_gzip = Return response).
Proof.
  rewrite make_response_spec. split.
  - intros response.
    destruct (body_bytes body) as [raw|] eqn:Hraw; [|done].
    destruct (_ && _); [|done]. intros [= <-]. exists raw. split.
    { destruct body as [|s|b]; cbn [body_bytes] in Hraw.
      - by injection Hraw as <-.
      - by apply encode_Some in Hraw as [_ ->].
      - by injection Hraw as <-. }
    cbn zeta. split; [|apply int_str_of_nat].
    unfold wire_response. by rewrite <- !app_assoc.
  - intros Hstatus%encode_is_Some Hct%encode_is_Some Hbody.
    rewrite Hstatus, Hct. cbn [andb].
    destruct body as [|s|b]; cbn [body_bytes]; eauto.
    destruct (Hbody s eq_refl) as [raw ->]. eauto.
Qed.

Lemma make_response_default_bare status :
  forallb is_scalar status = true ->
  make_response_default rt status = Return (bare_response status).
Proof.
  intros Hstatus. unfold make_response_default.
  rewrite make_response_spec, Hstatus. unfold wire_response.
  cbn [body_bytes]. change (encode []) with (Some (@nil byte)).
  cbn match. rewrite app_nil_r. reflexivity.
Qed.

(** Every response opens with its own status line. *)
Lemma make_response_status status body content_type use_gzip response :
  make_response rt status body content_type use_gzip = Return response ->
  exists rest,
    response = utf8 (lit "HTTP/1.1 ") ++ utf8 status ++ utf8 CRLF ++ rest.
Proof.
  rewrite make_response_spec.
  destruct (body_bytes body) as [raw|]; [|done].
  destruct (_ && _); [|done]. intros [= <-]. unfold wire_response.
  rewrite !utf8_app, <- !app_assoc. eexists. reflexivity.
Qed.

(** A body of bytes is framed without fail under the statuses and content
    types of the source. *)
Lemma make_response_bytes status content_type content use_gzip :
  forallb is_scalar status = true ->
  forallb is_scalar content_type = true ->
  make_response rt status (BodyBytes content) content_type use_gzip
  = Return (wire_response status content_type use_gzip
              (if use_gzip then gzip_compress rt content else content)).
Proof.
  intros Hstatus Hct. by rewrite make_response_spec, Hstatus, Hct.
Qed.

End response_facts.

(** ** Computations that call the file system *)
Section io_facts.
Import FS Props.

Lemma may_return_ret {A} (a b : A) : may_return (Ret a) b -> b = a.
Proof. by inversion 1. Qed.

Lemma may_return_bind {A B} (m : io A) (f : A -> io B) b :
  may_return (bind m f) b -> exists a, may_return m a /\ may_return (f a) b.
Proof.
  induction m as [a|p k IH|p k IH|p k IH|p c k IH]; cbn [bind]; intros H.
  - exists a. split; [constructor | done].
  - inversion H as [|? ? r ? Hr| | |]; subst.
    destruct (IH r Hr) as (a & ? & ?). exists a. split; [by econstructor | done].
  - inversion H as [| |? ? r ? Hr| |]; subst.
    destruct (IH r Hr) as (a & ? & ?). exists a. split; [by econstructor | done].
  - inversion H as [| | |? ? r ? Hr|]; subst.
    destruct (IH r Hr) as (a & ? & ?). exists a. split; [by econstructor | done].
  - inversion H as [| | | |? ? ? r ? Hr]; subst.
    destruct (IH r Hr) as (a & ? & ?). exists a. split; [by econstructor | done].
Qed.

Lemma bind_may_return {A B} (m : io A) (f : A -> io B) a b :
  may_return m a -> may_return (f a) b -> may_return (bind m f) b.
Proof.
  induction 1; cbn [bind]; intros Hf; [done| | | |]; econstructor; eauto.
Qed.

(** Every computation returns. *)
Lemma returns {A} (m : io A) : exists a, may_return m a.
Proof.
  induction m as [a|p k IH|p k IH|p k IH|p c k IH].
  - exists a. constructor.
  - destruct (IH None) as [a Ha]. exists a. by econstructor.
  - destruct (IH false) as [a Ha]. exists a. by econstructor.
  - destruct (IH false) as [a Ha]. exists a. by econstructor.
  - destruct (IH false) as [a Ha]. exists a. by econstructor.
Qed.

Lemma run_bind {A B} cwd (m : io A) (f : A -> io B) d :
  run cwd (bind m f) d = let '(a, d') := run cwd m d in run cwd (f a) d'.
Proof.
  revert d; induction m as [a|p k IH|p k IH|p k IH|p c k IH]; intros d;
    cbn [bind run].
  - done.
  - apply IH.
  - destruct (os_makedirs cwd d p). apply IH.
  - destruct (os_open_wb cwd d p); apply IH.
  - destruct (os_write cwd d p c). apply IH.
Qed.

(** What a run returns is among the values the computation can return. *)
Lemma run_may_return {A} cwd (m : io A) d : may_return m (fst (run cwd m d)).
Proof.
  revert d; induction m as [a|p k IH|p k IH|p k IH|p c k IH]; intros d;
    cbn [run].
  - constructor.
  - econstructor. apply IH.
  - destruct (os_makedirs cwd d p). econstructor. apply IH.
  - destruct (os_open_wb cwd d p); econstructor; apply IH.
  - destruct (os_write cwd d p c). econstructor. apply IH.
Qed.

End io_facts.

(** ** Routing *)
Section dispatch_facts.
Import PyStr FS Props HTTPServer.
Context (rt : runtime) (srv : HTTPServer.t).

Local Ltac refute_prefix H :=
  let k := fresh "k" in
  destruct H as [k H]; vm_compute in H; discriminate H.

Local Ltac in_statuses :=
  unfold error_statuses; rewrite !elem_of_cons; eauto 10.

Lemma str_eqb_refl s : str_eqb s s = true.
Proof. by apply bool_decide_eq_true_2. Qed.

(** The status line tells the error responses apart from one another and
    from the 200 and 201 responses. *)
Lemma has_status_bare st st' :
  st ∈ error_statuses -> st' ∈ lit "201 Created" :: error_statuses ->
  has_status st (bare_response st') -> st' = st.
Proof.
  unfold error_statuses, has_status. rewrite !elem_of_cons, !elem_of_nil.
  intros [->|[->|[->|[->|[]]]]] [->|[->|[->|[->|[->|[]]]]]] H;
    try reflexivity; refute_prefix H.
Qed.

Lemma has_status_200 st body content_type use_gzip response :
  make_response rt (lit "200 OK") body content_type use_gzip
  = Return response ->
  st ∈ error_statuses ->
  ~ has_status st response.
Proof.
  intros [rest ->]%make_response_status.
  unfold error_statuses, has_status. rewrite !elem_of_cons, !elem_of_nil.
  intros [->|[->|[->|[->|[]]]]] H; refute_prefix H.
Qed.

(** The calls of [make_response] with a status only do not raise, so that
    the [except] clauses around them are not entered. *)
Lemma make_response_fixed st :
  st ∈ lit "201 Created" :: error_statuses ->
  make_response_default rt st = Return (bare_response st)
  /\ except_ValueError rt (make_response_default rt st)
     = Return (bare_response st).
Proof.
  unfold error_statuses. rewrite !elem_of_cons, !elem_of_nil.
  intros [->|[->|[->|[->|[->|[]]]]]];
    rewrite make_response_default_bare by reflexivity; done.
Qed.

(** C2, as the code has it: a request whose first line does not split
    into exactly three tokens is answered 404 Not Found, with an empty
    body; the answer is not a 400. *)
Theorem malformed_request_404 raw :
  malformed raw ->
  handle_request rt srv raw
  = Ret (Return (bare_response (lit "404 Not Found")))
  /\ ~ has_status (lit "400 Bad Request") (bare_response (lit "404 Not Found")).
Proof.
  intros Hbad. split.
  - unfold handle_request, handle_request_try.
    rewrite (parse_malformed rt raw Hbad). cbn [HTTPRequest.path HTTPRequest.init].
    change (startswith [] (lit "/files/")) with false.
    change (startswith [] (lit "/echo/")) with false.
    change (str_eqb [] (lit "/")) with false.
    change (str_eqb [] (lit "/user-agent")) with false. cbn [bind].
    by rewrite make_response_default_bare by reflexivity.
  - intros H. refute_prefix H.
Qed.

(** The [/echo/] route on the wire. *)
Lemma echo_response raw s :
  HTTPRequest.path (HTTPRequest._parse rt raw) = lit "/echo/" ++ s ->
  handle_request rt srv raw
  = Ret (Return
           match encode s with
           | Some body =>
               let gzip :=
                 HTTPRequest.accepts_gzip rt (HTTPRequest._parse rt raw) in
               wire_response (lit "200 OK") (lit "text/plain") gzip
                 (if gzip then gzip_compress rt body else body)
           | None => bare_response (lit "400 Bad Request")
           end).
Proof.
  intros Hpath. unfold handle_request, handle_request_try. rewrite Hpath.
  change (startswith (lit "/echo/" ++ s) (lit "/files/")) with false.
  change (startswith (lit "/echo/" ++ s) (lit "/echo/")) with true.
  change (drop 6 (lit "/echo/" ++ s)) with s. cbn [bind].
  rewrite make_response_spec. cbn [body_bytes].
  destruct (encode s) as [body|].
  - reflexivity.
  - by rewrite make_response_default_bare by reflexivity.
Qed.

(** C10, as the code has it: a path that begins with [/echo/] is answered
    200 with the rest of the path as the body on the wire, in UTF-8 and
    with its length as [Content-Length], when the request does not
    negotiate gzip; when it does, the body on the wire is the gzip form
    of these bytes, under a [Content-Encoding: gzip] header; a rest that
    does not encode is answered 400.  For the path [/echo/] itself the
    answer without gzip is the bare 200 response ([Content-Length: 0], no
    body), and with gzip it carries the gzip form of the empty string.
    The path [/files/], in contrast, is answered 400. *)
Theorem echo_suffix_body raw :
  let request := HTTPRequest._parse rt raw in
  let gzip := HTTPRequest.accepts_gzip rt request in
  (forall s, HTTPRequest.path request = lit "/echo/" ++ s ->
     handle_request rt srv raw
     = Ret (Return
              match encode s with
              | Some body =>
                  if gzip then
                    utf8 (lit "HTTP/1.1 200 OK" ++ CRLF
                          ++ lit "Content-Type: text/plain" ++ CRLF
                          ++ lit "Content-Encoding: gzip" ++ CRLF
                          ++ lit "Content-Length: "
                          ++ str_of_nat (length (gzip_compress rt body))
                          ++ CRLF ++ CRLF)
                    ++ gzip_compress rt body
                  else
                    utf8 (lit "HTTP/1.1 200 OK" ++ CRLF
                          ++ lit "Content-Type: text/plain" ++ CRLF
                          ++ lit "Content-Length: "
                          ++ str_of_nat (length body) ++ CRLF ++ CRLF)
                    ++ body
              | None => bare_response (lit "400 Bad Request")
              end))
  /\ (HTTPRequest.path request = lit "/echo/" ->
      handle_request rt srv raw
      = Ret (Return
               (if gzip then
                  wire_response (lit "200 OK") (lit "text/plain") true
                    (gzip_compress rt [])
                else bare_response (lit "200 OK"))))
  /\ (HTTPRequest.path request = lit "/files/" ->
      handle_request rt srv raw
      = Ret (Return (bare_response (lit "400 Bad Request")))).
Proof.
  cbn zeta. split; [|split].
  - intros s Hpath. rewrite (echo_response raw s Hpath).
    destruct (encode s) as [body|]; [|done]. cbn zeta.
    by destruct (HTTPRequest.accepts_gzip rt _).
  - intros Hpath. rewrite (echo_response raw []) by (by rewrite app_nil_r).
    change (encode []) with (Some (@nil byte)). cbn zeta.
    by destruct (HTTPRequest.accepts_gzip rt _).
  - intros Hpath. unfold handle_request, handle_request_try, handle_file_request.
    rewrite Hpath.
    change (startswith (lit "/files/") (lit "/files/")) with true.
    change (drop 7 (lit "/files/")) with (@nil N).
    rewrite bool_decide_eq_true_2 by done. cbn [bind].
    by rewrite make_response_default_bare by reflexivity.
Qed.

(** The results of the file route. *)
Lemma handle_file_request_returns request r :
  may_return (handle_file_request rt srv request) r ->
  (exists st, st ∈ lit "201 Created" :: error_statuses
              /\ r = Return (bare_response st))
  \/ (exists body content_type use_gzip response,
        make_response rt (lit "200 OK") body content_type use_gzip
        = Return response
        /\ r = Return response).
Proof.
  unfold handle_file_request.
  assert (Hbare : forall st r0,
            st ∈ lit "201 Created" :: error_statuses ->
            r0 = make_response_default rt st
            \/ r0 = except_ValueError rt (make_response_default rt st) ->
            may_return (Ret r0) r ->
            (exists st, st ∈ lit "201 Created" :: error_statuses
                        /\ r = Return (bare_response st))
            \/ (exists body content_type use_gzip response,
                  make_response rt (lit "200 OK") body content_type use_gzip
                  = Return response
                  /\ r = Return response)).
  { intros st r0 Hst Hr0 ->%may_return_ret. left. exists st. split; [done|].
    destruct (make_response_fixed st Hst) as [H1 H2].
    destruct Hr0 as [->| ->]; done. }
  case_bool_decide.
  { eapply Hbare; [|by left]. in_statuses. }
  destruct (str_eqb _ (lit "POST")).
  { destruct (int _ _) as [n|]; [|eapply Hbare; [|by left]; in_statuses].
    destruct (n =? 0)%Z; [eapply Hbare; [|by right]; in_statuses|].
    intros (ok & _ & Hk)%may_return_bind.
    destruct ok; revert Hk; (eapply Hbare; [|by right]); in_statuses. }
  destruct (str_eqb _ (lit "GET")).
  { intros ([content success] & _ & Hk)%may_return_bind.
    destruct success, content as [content|];
      try (revert Hk; (eapply Hbare; [|by left]); in_statuses).
    rewrite make_response_bytes in Hk by reflexivity.
    apply may_return_ret in Hk as ->. right.
    eexists (BodyBytes content), _, _, _. split; [|reflexivity].
    by apply make_response_bytes. }
  eapply Hbare; [|by left]. in_statuses.
Qed.

(** The results of the [try] block: a response, or the exception of a
    call of [make_response] whose body does not encode. *)
Lemma handle_request_try_returns raw r :
  may_return (handle_request_try rt srv raw) r ->
  (exists st, st ∈ lit "201 Created" :: error_statuses
              /\ r = Return (bare_response st))
  \/ (exists body content_type use_gzip,
        r = make_response rt (lit "200 OK") body content_type use_gzip).
Proof.
  unfold handle_request_try.
  destruct (startswith _ (lit "/files/")).
  { intros [?|(body & ct & gz & response & Hresp & ->)]%handle_file_request_returns;
      [by left|].
    right. exists body, ct, gz. by rewrite Hresp. }
  destruct (startswith _ (lit "/echo/")).
  { intros ->%may_return_ret. right. eauto. }
  destruct (str_eqb _ (lit "/")).
  { intros ->%may_return_ret. right. eauto. }
  destruct (str_eqb _ (lit "/user-agent")).
  { intros ->%may_return_ret. right. eauto. }
  intros ->%may_return_ret. left. exists (lit "404 Not Found").
  split; [in_statuses|].
  by rewrite make_response_default_bare by reflexivity.
Qed.

(** [handle_request] always returns a response: one of the bare ones, or
    a 200 response that [make_response] built. *)
Lemma handle_request_returns raw r :
  may_return (handle_request rt srv raw) r ->
  (exists st, st ∈ lit "201 Created" :: error_statuses
              /\ r = Return (bare_response st))
  \/ (exists body content_type use_gzip response,
        make_response rt (lit "200 OK") body content_type use_gzip
        = Return response
        /\ r = Return response).
Proof.
  unfold handle_request. intros (r0 & Htry & Hr)%may_return_bind.
  destruct r0 as [response|e].
  - apply may_return_ret in Hr as ->.
    destruct (handle_request_try_returns raw _ Htry)
      as [?|(body & ct & gz & Hresp)]; [by left|].
    right. by exists body, ct, gz, response.
  - apply may_return_ret in Hr as ->. left. exists (lit "400 Bad Request").
    split; [in_statuses|].
    by rewrite make_response_default_bare by reflexivity.
Qed.

(** An exception of the [try] block is answered with the bare 400. *)
Lemma handle_request_converts raw e :
  may_return (handle_request_try rt srv raw) (Raise e) ->
  may_return (handle_request rt srv raw)
    (Return (bare_response (lit "400 Bad Request"))).
Proof.
  intros Htry. unfold handle_request.
  apply (bind_may_return _ _ _ _ Htry). cbn match.
  rewrite make_response_default_bare by reflexivity. constructor.
Qed.

(** C9: a response of [handle_request] with one of the statuses 400, 404,
    405, 500 is, byte for byte, the status line, [Content-Type:
    text/plain], [Content-Length: 0] and the blank line: no
    [Content-Encoding] header, nothing compressed, no body, whatever the
    request says about encodings. *)
Theorem error_response_bare raw resp st :
  may_return (handle_request rt srv raw) (Return resp) ->
  st ∈ error_statuses ->
  has_status st resp ->
  resp = bare_response st.
Proof.
  intros Hret Hst Hstatus.
  destruct (handle_request_returns raw _ Hret)
    as [(st' & Hst' & [= ->])|(body & content_type & use_gzip & response
                               & Hresp & [= ->])].
  - by rewrite (has_status_bare st st' Hst Hst' Hstatus).
  - by destruct (has_status_200 st _ _ _ _ Hresp Hst).
Qed.

End dispatch_facts.

(** ** The file route and the connection handler *)
Section file_route_facts.
Import PyStr FS Props HTTPServer.
Context (rt : runtime) (srv : HTTPServer.t).

(** C4, as the code has it: on a POST to [/files/<name>] with a non-empty
    name, a [content-length] value that [int] rejects gives 400, the value
    0 gives 400, an absent header gives 400, and a positive value [n]
    hands the first [n] bytes of the body, or the whole body when it is
    shorter than [n], to [write_file]; the answer is 201 when the write
    succeeds and 500 when it fails. *)
Theorem post_file_content_length request name :
  HTTPRequest.path request = lit "/files/" ++ name ->
  name ≠ [] ->
  HTTPRequest.method request = lit "POST" ->
  let declared :=
    int (unicode_int rt)
      (default (lit "0")
         (HTTPRequest.headers request !! lit "content-length")) in
  let answer := handle_file_request rt srv request in
  (declared = None ->
   answer = Ret (Return (bare_response (lit "400 Bad Request"))))
  /\ (declared = Some 0%Z ->
      answer = Ret (Return (bare_response (lit "400 Bad Request"))))
  /\ (HTTPRequest.headers request !! lit "content-length" = None ->
      answer = Ret (Return (bare_response (lit "400 Bad Request"))))
  /\ (forall n, declared = Some n -> (0 < n)%Z ->
      let content := take (Z.to_nat n) (HTTPRequest.body request) in
      length content = Nat.min (Z.to_nat n) (length (HTTPRequest.body request))
      /\ answer
         = bind (FileHandler.write_file rt (file_handler srv) name content)
             (fun ok =>
                if ok then Ret (Return (bare_response (lit "201 Created")))
                else Ret (Return (bare_response
                                    (lit "500 Internal Server Error"))))).
Proof.
  intros Hpath Hname Hmethod. cbn zeta.
  unfold handle_file_request. rewrite Hpath, Hmethod.
  change (drop 7 (lit "/files/" ++ name)) with name.
  rewrite (bool_decide_eq_false_2 _ Hname).
  change (str_eqb (lit "POST") (lit "POST")) with true. cbn match.
  split; [by intros ->|]. split; [by intros ->|]. split; [by intros ->|].
  intros n Hn Hpos. split; [apply length_take|].
  rewrite Hn. destruct (Z.eqb_spec n 0); [lia|].
  unfold slice_to. destruct (Z.leb_spec 0 n); [|lia]. reflexivity.
Qed.

(** C3, as the code has it.  Inside [handle_request] every exception of
    the [try] block is answered with the bare 400, so that
    [handle_request] returns a response for every text.  In
    [handle_client] the socket is closed once, as the last call, on every
    path.  When [recv] returns bytes that decode as UTF-8, the response of
    [handle_request] is handed to [sendall] before the close, and
    [handle_client] returns unless [sendall] or [close] raises; when
    [recv] raises or the bytes do not decode, nothing is sent and the
    exception leaves [handle_client]. *)
Theorem handle_client_outcome (sock : socket.t) :
  (forall raw r,
     may_return (handle_request rt srv raw) r <->
     exists r0,
       may_return (handle_request_try rt srv raw) r0
       /\ r = Return match r0 with
                     | Return response => response
                     | Raise _ => bare_response (lit "400 Bad Request")
                     end)
  /\ (exists r, may_return (handle_client rt sock srv) r)
  /\ forall events out,
       may_return (handle_client rt sock srv) (events, out) ->
       (exists before, events = before ++ [Close] /\ Close ∉ before)
       /\ match socket.recv sock BUFFER_SIZE with
          | Return data =>
              match decode data with
              | Some raw =>
                  exists response,
                    may_return (handle_request rt srv raw) (Return response)
                    /\ events = [Sendall response; Close]
                    /\ (out = Returned <->
                        socket.sendall sock response = Return tt
                        /\ socket.close sock = Return tt)
              | None =>
                  events = [Close]
                  /\ exists e,
                       out = Raised e
                       /\ (socket.close sock = Return tt ->
                           e = UnicodeDecodeError)
              end
          | Raise e0 =>
              events = [Close]
              /\ exists e,
                   out = Raised e
                   /\ (socket.close sock = Return tt -> e = e0)
          end.
Proof.
  assert (Hclose : forall e0, exists e,
            finally_close sock (Raised e0) = Raised e
            /\ (socket.close sock = Return tt -> e = e0)).
  { intros e0. unfold finally_close.
    destruct (socket.close sock) as [[]|e']; [by exists e0|by exists e']. }
  assert (Hone : exists before : list socket_event,
            [Close] = before ++ [Close] /\ Close ∉ before).
  { exists []. split; [done | apply not_elem_of_nil]. }
  split; [|split; [apply returns|]].
  - intros raw r. unfold handle_request. split.
    + intros (r0 & Htry & Hr)%may_return_bind. exists r0. split; [done|].
      destruct r0 as [response|e]; apply may_return_ret in Hr as ->; [done|].
      by rewrite make_response_default_bare by reflexivity.
    + intros (r0 & Htry & ->). apply (bind_may_return _ _ _ _ Htry).
      destruct r0 as [response|e]; [constructor|].
      rewrite make_response_default_bare by reflexivity. constructor.
  - intros events out. unfold handle_client.
    destruct (socket.recv sock BUFFER_SIZE) as [data|e0].
    2:{ intros [= -> ->]%may_return_ret. split; [exact Hone|].
        split; [done | apply Hclose]. }
    destruct (decode data) as [raw|].
    2:{ intros [= -> ->]%may_return_ret. split; [exact Hone|].
        split; [done | apply Hclose]. }
    intros (r & Hr & Hk)%may_return_bind.
    assert (exists response, r = Return response) as [response ->].
    { destruct (handle_request_returns rt srv raw r Hr)
        as [(st & _ & ->)|(? & ? & ? & response & _ & ->)]; eauto. }
    assert (Hsent : exists before : list socket_event,
              [Sendall response; Close] = before ++ [Close]
              /\ Close ∉ before).
    { exists [Sendall response]. split; [done|].
      intros Hin%list_elem_of_singleton. discriminate Hin. }
    unfold finally_close in Hk.
    destruct (socket.sendall sock response) as [[]|e1] eqn:Hsend,
             (socket.close sock) as [[]|e2];
      apply may_return_ret in Hk as [= -> ->];
      (split; [exact Hsent|]); exists response;
      (split; [exact Hr|]); (split; [done|]); rewrite Hsend;
      (split; [try done | try (by intros [? ?])]).
Qed.

End file_route_facts.

(** ** [FileHandler] *)
Section file_handler_facts.
Import PyStr FS Props.
Context (rt : runtime).

(** A path that [is_safe_path] refuses is rejected without a call to the
    file system. *)
Lemma unsafe_path_rejected (fh : FileHandler.t) filename content :
  FileHandler.is_safe_path rt fh
    (PosixPath.join (FileHandler.base_dir fh) filename) = false ->
  FileHandler.read_file rt fh filename = Ret (None, false)
  /\ FileHandler.write_file rt fh filename content = Ret false.
Proof.
  intros H. unfold FileHandler.read_file, FileHandler.write_file.
  by rewrite H.
Qed.

(** Opening a file for writing changes neither the directories nor the
    way a path resolves. *)
Lemma os_open_wb_dirs cwd d d' p :
  os_open_wb cwd d p = Some d' -> dirs d' = dirs d.
Proof.
  unfold os_open_wb. destruct (resolve cwd (dirs d) p) as [q|]; [|done].
  cbn. case_bool_decide; [done|]. by intros [= <-].
Qed.

(** A file that was opened for writing and written in full reads back as
    written. *)
Lemma open_wb_then_rb cwd d d1 d2 p content :
  os_open_wb cwd d p = Some d1 ->
  os_write cwd d1 p content = (true, d2) ->
  os_open_rb cwd d2 p = Some content.
Proof.
  unfold os_open_wb, os_write, os_open_rb.
  destruct (resolve cwd (dirs d) p) as [q|] eqn:Hq; [|done]. cbn.
  case_bool_decide as Hdir; [done|]. intros [= <-]. cbn [dirs files free].
  rewrite Hq. destruct (_ <=? _); [|done]. intros [= <-]. cbn [dirs files].
  rewrite Hq. cbn. rewrite bool_decide_eq_false_2 by done.
  apply lookup_insert_eq.
Qed.

(** A successful [write_file] went through the three calls. *)
Lemma write_file_success cwd (fh : FileHandler.t) filename content d d' :
  run cwd (FileHandler.write_file rt fh filename content) d = (true, d') ->
  let filepath := PosixPath.join (FileHandler.base_dir fh) filename in
  FileHandler.is_safe_path rt fh filepath = true
  /\ exists d1 d2,
       os_makedirs cwd d (PosixPath.dirname filepath) = (true, d1)
       /\ os_open_wb cwd d1 filepath = Some d2
       /\ os_write cwd d2 filepath content = (true, d').
Proof.
  unfold FileHandler.write_file. cbn zeta.
  destruct (FileHandler.is_safe_path rt fh _); cbn [negb run]; [|done].
  destruct (os_makedirs _ d _) as [[] d1] eqn:Hmade; [|done]. cbn [run].
  destruct (os_open_wb _ d1 _) as [d2|] eqn:Hopen; [|done]. cbn [run].
  destruct (os_write _ d2 _ content) as [[] d3] eqn:Hwrite; [|done].
  cbn [run]. intros [= <-]. split; [done|]. by exists d1, d2.
Qed.

(** C7: when [write_file] of [content] under [filename] reports success,
    [read_file] of the same name on the resulting disk returns [content],
    with the success flag. *)
Theorem write_then_read (fh : FileHandler.t) filename content d d' :
  run (getcwd rt) (FileHandler.write_file rt fh filename content) d
  = (true, d') ->
  fst (run (getcwd rt) (FileHandler.read_file rt fh filename) d')
  = (Some content, true).
Proof.
  intros (Hsafe & d1 & d2 & _ & Hopen & Hwrite)%write_file_success.
  unfold FileHandler.read_file. rewrite Hsafe. cbn [negb run].
  by rewrite (open_wb_then_rb _ _ _ _ _ _ Hopen Hwrite).
Qed.

End file_handler_facts.

(** ** The properties at concrete requests *)
Section examples.
Import PyStr FS Props HTTPServer.

(** C1: with the base directory [/tmp], the name [../tmpevil/x] resolves
    to [/tmpevil/x], which is not in [/tmp]; [is_safe_path] accepts it all
    the same, because [/tmpevil/x] begins with the characters [/tmp], and
    [read_file] and [write_file] go on to the file system: the file
    outside the base directory is read, served and overwritten. *)
Theorem sibling_directory_escapes :
  let fh := file_handler demo_server in
  let filename := lit "../tmpevil/x" in
  let filepath := PosixPath.join (FileHandler.base_dir fh) filename in
  FileHandler.base_dir fh = lit "/tmp"
  /\ PosixPath.abspath (getcwd demo_runtime) filepath = lit "/tmpevil/x"
  /\ inside (lit "/tmp") (lit "/tmpevil/x") = false
  /\ FileHandler.is_safe_path demo_runtime fh filepath = true
  /\ ~ makes_no_call (FileHandler.read_file demo_runtime fh filename)
  /\ ~ makes_no_call (FileHandler.write_file demo_runtime fh filename (utf8 (lit "owned")))
  /\ fst (run (getcwd demo_runtime) (FileHandler.read_file demo_runtime fh filename) demo_disk)
     = (Some (utf8 (lit "secret")), true)
  /\ (let '(ok, d) :=
        run (getcwd demo_runtime)
          (FileHandler.write_file demo_runtime fh filename (utf8 (lit "owned")))
          demo_disk in
      ok = true /\ files d !! lit "/tmpevil/x" = Some (utf8 (lit "owned")))
  /\ fst (run (getcwd demo_runtime)
            (handle_request demo_runtime demo_server
               (text ["GET /files/../tmpevil/x HTTP/1.1"]%string ""))
            demo_disk)
     = Return (wire_response (lit "200 OK") (lit "application/octet-stream")
                 false (utf8 (lit "secret"))).
Proof.
  cbn zeta. repeat split; try (vm_compute; reflexivity).
  - intros [a H]. vm_compute in H. discriminate H.
  - intros [a H]. vm_compute in H. discriminate H.
Qed.

(** C2 fails as stated: the first line [GET /] has two tokens, and the
    answer is 404, not 400. *)
Lemma malformed_request_not_400 :
  let raw := text ["GET /"]%string "" in
  malformed raw
  /\ handle_request demo_runtime demo_server raw
     = Ret (Return (bare_response (lit "404 Not Found")))
  /\ ~ has_status (lit "400 Bad Request") (bare_response (lit "404 Not Found")).
Proof.
  cbn zeta. split; [|split].
  - unfold malformed. vm_compute. lia.
  - vm_compute. reflexivity.
  - intros [k H]. vm_compute in H. discriminate H.
Qed.

Lemma malformed_request_404_witness :
  let raw := text ["GET"; "Host: localhost"]%string "" in
  malformed raw
  /\ handle_request demo_runtime demo_server raw
     = Ret (Return (bare_response (lit "404 Not Found"))).
Proof.
  cbn zeta.
  assert (Hbad : malformed (text ["GET"; "Host: localhost"]%string "")).
  { unfold malformed. vm_compute. lia. }
  split; [exact Hbad|]. apply (malformed_request_404 demo_runtime demo_server _ Hbad).
Defined.

(** C3 fails as stated: the byte FF is not UTF-8; the handler sends
    nothing, closes the socket, and the decoding error leaves
    [handle_client], although every call on the socket succeeds. *)
Lemma undecodable_request_unanswered :
  handle_client demo_runtime (peer [xff]) demo_server
  = Ret ([Close], Raised UnicodeDecodeError)
  /\ forall r,
       may_return (handle_client demo_runtime (peer [xff]) demo_server) r ->
       snd r = Raised UnicodeDecodeError
       /\ ~ exists response, Sendall response ∈ fst r.
Proof.
  assert (H : handle_client demo_runtime (peer [xff]) demo_server
              = Ret ([Close], Raised UnicodeDecodeError)).
  { vm_compute. reflexivity. }
  split; [exact H|]. intros r. rewrite H. intros ->%may_return_ret.
  split; [done|]. intros [response Hin]. cbn [fst] in Hin.
  apply list_elem_of_singleton in Hin. discriminate Hin.
Qed.

(** C3 at a client that sends [GET /] and takes the answer: the socket is
    closed last and [handle_client] returns; and at a text whose echo
    path holds the surrogate U+D800: the [try] block raises, and the
    answer is the bare 400. *)
Lemma handle_client_outcome_witness :
  let sock := peer (utf8 (text ["GET / HTTP/1.1"]%string "")) in
  let r :=
    fst (run (getcwd demo_runtime)
           (handle_client demo_runtime sock demo_server) demo_disk) in
  let bad := lit "GET /echo/" ++ [0xD800] ++ lit " HTTP/1.1" ++ CRLF ++ CRLF in
  (exists before, fst r = before ++ [Close] /\ Close ∉ before)
  /\ snd r = Returned
  /\ handle_request_try demo_runtime demo_server bad
     = Ret (Raise UnicodeEncodeError)
  /\ may_return (handle_request demo_runtime demo_server bad)
       (Return (bare_response (lit "400 Bad Request"))).
Proof.
  cbn zeta.
  set (sock := peer (utf8 (text ["GET / HTTP/1.1"]%string ""))).
  set (bad := lit "GET /echo/" ++ [0xD800] ++ lit " HTTP/1.1" ++ CRLF ++ CRLF).
  destruct (handle_client_outcome demo_runtime demo_server sock)
    as (Hconv & _ & Hclient).
  assert (Htry : handle_request_try demo_runtime demo_server bad
                 = Ret (Raise UnicodeEncodeError)) by (vm_compute; reflexivity).
  split; [|split; [vm_compute; reflexivity|split; [exact Htry|]]].
  - refine (proj1 (Hclient _ _ _)).
    rewrite <- surjective_pairing. apply run_may_return.
  - apply (proj2 (Hconv bad _)). exists (Raise UnicodeEncodeError).
    split; [|done]. rewrite Htry. constructor.
Defined.

(** C4 fails as stated: the header declares 10 bytes, the body has 5, and
    the 5 bytes are what [write_file] receives. *)
Lemma short_body_written_short :
  let request :=
    HTTPRequest._parse demo_runtime
      (text ["POST /files/f HTTP/1.1"; "Content-Length: 10"]%string "hello") in
  int (unicode_int demo_runtime)
    (default (lit "0") (HTTPRequest.headers request !! lit "content-length"))
  = Some 10%Z
  /\ handle_file_request demo_runtime demo_server request
     = bind (FileHandler.write_file demo_runtime (file_handler demo_server) (lit "f")
               (utf8 (lit "hello")))
         (fun ok =>
            if ok then Ret (Return (bare_response (lit "201 Created")))
            else Ret (Return (bare_response (lit "500 Internal Server Error"))))
  /\ length (utf8 (lit "hello")) = 5%nat.
Proof. cbn zeta. repeat split; vm_compute; reflexivity. Qed.

Lemma post_file_content_length_witness :
  let request :=
    HTTPRequest._parse demo_runtime
      (text ["POST /files/f HTTP/1.1"; "Content-Length: 5"]%string
         "hello world") in
  HTTPRequest.path request = lit "/files/" ++ lit "f"
  /\ HTTPRequest.method request = lit "POST"
  /\ handle_file_request demo_runtime demo_server request
     = bind (FileHandler.write_file demo_runtime (file_handler demo_server) (lit "f")
               (take 5 (HTTPRequest.body request)))
         (fun ok =>
            if ok then Ret (Return (bare_response (lit "201 Created")))
            else Ret (Return (bare_response (lit "500 Internal Server Error")))).
Proof.
  cbn zeta.
  set (request := HTTPRequest._parse demo_runtime _).
  assert (Hpath : HTTPRequest.path request = lit "/files/" ++ lit "f")
    by (vm_compute; reflexivity).
  assert (Hmethod : HTTPRequest.method request = lit "POST")
    by (vm_compute; reflexivity).
  split; [exact Hpath|]. split; [exact Hmethod|].
  assert (Hname : lit "f" ≠ []) by discriminate.
  destruct (post_file_content_length demo_runtime demo_server request (lit "f")
              Hpath Hname Hmethod) as (_ & _ & _ & Hwrite).
  apply (Hwrite 5%Z); [vm_compute; reflexivity | lia].
Defined.

Lemma accepts_gzip_exact_token_witness :
  let request :=
    HTTPRequest.Build (lit "GET") (lit "/")
      {[ lit "accept-encoding" := lit "br, GZip , deflate" ]} [] in
  HTTPRequest.accepts_gzip demo_runtime request = true
  /\ gzip_token_spec demo_runtime (lit "br, GZip , deflate").
Proof.
  cbn zeta.
  assert (H : HTTPRequest.accepts_gzip demo_runtime
                (HTTPRequest.Build (lit "GET") (lit "/")
                   {[ lit "accept-encoding" := lit "br, GZip , deflate" ]} [])
              = true) by (vm_compute; reflexivity).
  split; [exact H|].
  apply (proj1 (accepts_gzip_exact_token demo_runtime)) in H. exact H.
Defined.

Lemma content_length_exact_witness :
  let response :=
    utf8 (lit "HTTP/1.1 200 OK" ++ CRLF
          ++ lit "Content-Type: text/plain" ++ CRLF
          ++ lit "Content-Encoding: gzip" ++ CRLF
          ++ lit "Content-Length: 5" ++ CRLF ++ CRLF)
    ++ demo_compress (utf8 (lit "abc")) in
  make_response demo_runtime (lit "200 OK") (BodyStr (lit "abc"))
    (lit "text/plain") true
  = Return response
  /\ exists raw,
       raw = utf8 (lit "abc")
       /\ response
          = utf8 (lit "HTTP/1.1 " ++ lit "200 OK" ++ CRLF
                  ++ lit "Content-Type: " ++ lit "text/plain" ++ CRLF
                  ++ (lit "Content-Encoding: gzip" ++ CRLF)
                  ++ lit "Content-Length: "
                  ++ str_of_nat (length (demo_compress raw)) ++ CRLF ++ CRLF)
            ++ demo_compress raw
       /\ int (unicode_int demo_runtime)
            (str_of_nat (length (demo_compress raw)))
          = Some (Z.of_nat (length (demo_compress raw))).
Proof.
  cbn zeta.
  assert (H : make_response demo_runtime (lit "200 OK") (BodyStr (lit "abc"))
                (lit "text/plain") true
              = Return
                  (utf8 (lit "HTTP/1.1 200 OK" ++ CRLF
                         ++ lit "Content-Type: text/plain" ++ CRLF
                         ++ lit "Content-Encoding: gzip" ++ CRLF
                         ++ lit "Content-Length: 5" ++ CRLF ++ CRLF)
                   ++ demo_compress (utf8 (lit "abc"))))
    by (vm_compute; reflexivity).
  split; [exact H|].
  exact (proj1 (content_length_exact demo_runtime (lit "200 OK")
                  (BodyStr (lit "abc")) (lit "text/plain") true) _ H).
Defined.

Lemma write_then_read_witness :
  let fh := file_handler demo_server in
  let written :=
    run (getcwd demo_runtime)
      (FileHandler.write_file demo_runtime fh (lit "a/b.txt") (utf8 (lit "hello")))
      demo_disk in
  fst written = true
  /\ fst (run (getcwd demo_runtime) (FileHandler.read_file demo_runtime fh (lit "a/b.txt"))
            (snd written))
     = (Some (utf8 (lit "hello")), true).
Proof.
  cbn zeta. split; [vm_compute; reflexivity|].
  apply (write_then_read demo_runtime (file_handler demo_server) (lit "a/b.txt")
           (utf8 (lit "hello")) demo_disk).
  vm_compute. reflexivity.
Defined.

Lemma error_response_bare_witness :
  let raw :=
    text ["GET /nope HTTP/1.1"; "Accept-Encoding: gzip"]%string "" in
  HTTPRequest.accepts_gzip demo_runtime (HTTPRequest._parse demo_runtime raw) = true
  /\ fst (run (getcwd demo_runtime)
            (handle_request demo_runtime demo_server raw) demo_disk)
     = Return (bare_response (lit "404 Not Found")).
Proof.
  cbn zeta.
  set (raw := text ["GET /nope HTTP/1.1"; "Accept-Encoding: gzip"]%string "").
  set (resp := utf8 (lit "HTTP/1.1 404 Not Found" ++ CRLF)
               ++ utf8 (lit "Content-Type: text/plain" ++ CRLF
                        ++ lit "Content-Length: 0" ++ CRLF ++ CRLF)).
  assert (Hrun : fst (run (getcwd demo_runtime)
                        (handle_request demo_runtime demo_server raw) demo_disk)
                 = Return resp) by (vm_compute; reflexivity).
  split; [vm_compute; reflexivity|]. rewrite Hrun. apply (f_equal Return).
  apply (error_response_bare demo_runtime demo_server raw resp
           (lit "404 Not Found")).
  - rewrite <- Hrun. apply run_may_return.
  - unfold error_statuses. rewrite !elem_of_cons. auto.
  - eexists. reflexivity.
Defined.

(** C10 fails as stated: when the request negotiates gzip, the body that
    answers [/echo/] is not empty, and the body that answers [/echo/abc]
    is not [abc]: it is the gzip form, under [Content-Encoding: gzip]. *)
Lemma echo_gzip_body_not_suffix :
  let empty := text ["GET /echo/ HTTP/1.1"; "Accept-Encoding: gzip"]%string "" in
  let abc := text ["GET /echo/abc HTTP/1.1"; "Accept-Encoding: gzip"]%string "" in
  HTTPRequest.path (HTTPRequest._parse demo_runtime empty) = lit "/echo/"
  /\ handle_request demo_runtime demo_server empty
     = Ret (Return (wire_response (lit "200 OK") (lit "text/plain") true
                      (gzip_compress demo_runtime [])))
  /\ gzip_compress demo_runtime [] ≠ []
  /\ wire_response (lit "200 OK") (lit "text/plain") true
       (gzip_compress demo_runtime [])
     ≠ bare_response (lit "200 OK")
  /\ HTTPRequest.path (HTTPRequest._parse demo_runtime abc) = lit "/echo/abc"
  /\ handle_request demo_runtime demo_server abc
     = Ret (Return (wire_response (lit "200 OK") (lit "text/plain") true
                      (gzip_compress demo_runtime (utf8 (lit "abc")))))
  /\ gzip_compress demo_runtime (utf8 (lit "abc")) ≠ utf8 (lit "abc").
Proof.
  cbn zeta. repeat split; try (vm_compute; reflexivity);
    intros H; vm_compute in H; discriminate H.
Qed.

(** C10 at [/echo/abc] without gzip, at an echo path that holds the
    surrogate U+D800, and at [/echo/] and [/files/]. *)
Lemma echo_suffix_body_witness :
  let raw := text ["GET /echo/abc HTTP/1.1"]%string "" in
  let bad := lit "GET /echo/" ++ [0xD800] ++ lit " HTTP/1.1" ++ CRLF ++ CRLF in
  HTTPRequest.path (HTTPRequest._parse demo_runtime raw) = lit "/echo/" ++ lit "abc"
  /\ handle_request demo_runtime demo_server raw
     = Ret (Return
              (utf8 (lit "HTTP/1.1 200 OK" ++ CRLF
                     ++ lit "Content-Type: text/plain" ++ CRLF
                     ++ lit "Content-Length: 3" ++ CRLF ++ CRLF)
               ++ utf8 (lit "abc")))
  /\ handle_request demo_runtime demo_server bad
     = Ret (Return (bare_response (lit "400 Bad Request")))
  /\ handle_request demo_runtime demo_server
       (text ["GET /echo/ HTTP/1.1"]%string "")
     = Ret (Return (bare_response (lit "200 OK")))
  /\ handle_request demo_runtime demo_server
       (text ["GET /files/ HTTP/1.1"]%string "")
     = Ret (Return (bare_response (lit "400 Bad Request"))).
Proof.
  cbn zeta.
  set (raw := text ["GET /echo/abc HTTP/1.1"]%string "").
  set (bad := lit "GET /echo/" ++ [0xD800] ++ lit " HTTP/1.1" ++ CRLF ++ CRLF).
  assert (Hpath : HTTPRequest.path (HTTPRequest._parse demo_runtime raw)
                  = lit "/echo/" ++ lit "abc") by (vm_compute; reflexivity).
  assert (Hbad : HTTPRequest.path (HTTPRequest._parse demo_runtime bad)
                 = lit "/echo/" ++ [0xD800]) by (vm_compute; reflexivity).
  split; [exact Hpath|]. split; [|split; [|split]].
  - exact (proj1 (echo_suffix_body demo_runtime demo_server raw) _ Hpath).
  - exact (proj1 (echo_suffix_body demo_runtime demo_server bad) _ Hbad).
  - refine (proj1 (proj2 (echo_suffix_body demo_runtime demo_server _)) _).
    vm_compute. reflexivity.
  - refine (proj2 (proj2 (echo_suffix_body demo_runtime demo_server _)) _).
    vm_compute. reflexivity.
Defined.

End examples.

(** * Further properties of the parser *)
Section split_facts.
Import PyStr.

Lemma startswith_app s p t : startswith s p = true -> startswith (s ++ t) p = true.
Proof.
  revert s; induction p as [|a p IH]; intros [|b s]; cbn; try done.
  intros [-> H]%andb_true_iff. by rewrite (IH _ H).
Qed.

Lemma startswith_self p t : startswith (p ++ t) p = true.
Proof.
  induction p as [|a p IH]; cbn; [done|]. by rewrite N.eqb_refl, IH.
Qed.

Lemma startswith_drop s p :
  startswith s p = true -> s = p ++ drop (length p) s.
Proof.
  revert s; induction p as [|a p IH]; intros [|b s]; cbn; try done.
  intros [->%N.eqb_eq H]%andb_true_iff. f_equal. by apply IH.
Qed.

(** [split1] cuts at the first occurrence of a non-empty separator, and
    returns the string whole when there is none. *)
Lemma split1_spec sep s :
  sep ≠ [] ->
  (contains s sep = false /\ split1 sep s = [s])
  \/ (contains s sep = true
      /\ exists h t, split1 sep s = [h; t] /\ s = h ++ sep ++ t
           /\ forall h' t', s = h' ++ sep ++ t' -> (length h <= length h')%nat).
Proof.
  intros Hsep. induction s as [|c s IH].
  - left. destruct sep; [done|]. by cbn.
  - cbn [split1 contains]. destruct (startswith (c :: s) sep) eqn:Hst.
    + right. split; [done|]. exists [], (drop (length sep) (c :: s)).
      split; [done|]. split; [by apply startswith_drop|]. intros; cbn; lia.
    + cbn [orb]. destruct IH as [[Hc Hs]|(Hc & h & t & Hs & Heq & Hmin)].
      * left. by rewrite Hc, Hs.
      * right. rewrite Hc, Hs. split; [done|]. exists (c :: h), t.
        split; [done|]. split; [by rewrite Heq|].
        intros [|c' h'] t' Heq'.
        { cbn in Heq'. rewrite Heq', startswith_self in Hst. done. }
        cbn in Heq'. injection Heq' as -> Heq'. cbn. apply le_n_S.
        by apply (Hmin h' t').
Qed.

Lemma contains_single_elem c s : contains s [c] = true <-> c ∈ s.
Proof.
  induction s as [|x s IH]; cbn [contains].
  - cbn. rewrite elem_of_nil. split; [done | tauto].
  - rewrite startswith_single, orb_true_iff, IH, elem_of_cons, N.eqb_eq.
    split; (intros [?|?]; [left | right]); done.
Qed.

(** A line [name:value] is cut at its first colon. *)
Lemma split1_first c name value :
  c ∉ name -> split1 [c] (name ++ c :: value) = [name; value].
Proof.
  induction name as [|x name IH]; intros Hname.
  - cbn [app split1]. by rewrite startswith_single, N.eqb_refl.
  - rewrite not_elem_of_cons in Hname. destruct Hname as [Hx Hname].
    rewrite <- app_comm_cons. cbn [split1]. rewrite startswith_single.
    destruct (N.eqb_spec c x); [done|]. by rewrite IH.
Qed.

End split_facts.

Section parser_facts.
Import PyStr Props.
Context (rt : runtime).

(** X1: the header section and the body are the two sides of the first
    blank line of the request; without a blank line the whole text is the
    header section and the body is empty. *)
Theorem sections_first_blank_line raw :
  let '(headers_section, body) := HTTPRequest.sections raw in
  (contains raw (CRLF ++ CRLF) = false /\ headers_section = raw /\ body = [])
  \/ (raw = headers_section ++ (CRLF ++ CRLF) ++ body
      /\ forall h b, raw = h ++ (CRLF ++ CRLF) ++ b ->
           (length headers_section <= length h)%nat).
Proof.
  unfold HTTPRequest.sections.
  destruct (split1_spec (CRLF ++ CRLF) raw) as [[Hc Hs]|(Hc & h & t & Hs & Heq & Hmin)];
    [done| |]; rewrite Hc.
  - by left.
  - rewrite Hs. right. by split.
Qed.

(** X2: a header line is cut at its first colon: the name before it,
    lower-cased and trimmed, is stored with the trimmed rest of the line,
    colons included, and can be looked up under that name; a line without
    a colon changes nothing. *)
Theorem parse_header_first_colon hs name value :
  58 ∉ name ->
  let key := strip (lower (unicode_lower rt) name) in
  HTTPRequest.parse_header rt hs (name ++ lit ":" ++ value)
  = <[key := strip value]> hs
  /\ HTTPRequest.parse_header rt hs (name ++ lit ":" ++ value) !! key
     = Some (strip value)
  /\ HTTPRequest.parse_header rt hs name = hs.
Proof.
  intros Hname. cbn zeta.
  assert (Hline : HTTPRequest.parse_header rt hs (name ++ lit ":" ++ value)
                  = <[strip (lower (unicode_lower rt) name) := strip value]> hs).
  { unfold HTTPRequest.parse_header. change (lit ":") with [58].
    cbn [app]. rewrite split1_first by done.
    destruct (contains _ [58]) eqn:Hc; [done|].
    assert (contains (name ++ 58 :: value) [58] = true) as Hc'; [|congruence].
    apply contains_single_elem. rewrite elem_of_app, elem_of_cons. auto. }
  split; [exact Hline|]. split; [by rewrite Hline, lookup_insert_eq|].
  unfold HTTPRequest.parse_header. change (lit ":") with [58].
  destruct (contains name [58]) eqn:Hc; [|done].
  by apply contains_single_elem in Hc.
Qed.

End parser_facts.

Section strip_facts.
Import PyStr.

Lemma split_ws_go_clean s cur :
  Forall (fun c => isspace c = false) cur ->
  Forall (fun tok : str => tok ≠ [] /\ Forall (fun c => isspace c = false) tok)
    (split_ws_go s cur).
Proof.
  assert (Hcur : forall cur : str, cur ≠ [] ->
            Forall (fun c => isspace c = false) cur ->
            rev cur ≠ [] /\ Forall (fun c => isspace c = false) (rev cur)).
  { intros cur' Hne Hall. split; [|by apply Forall_rev].
    intros Hrev. apply Hne. by rewrite <- (rev_involutive cur'), Hrev. }
  revert cur; induction s as [|c s IH]; intros cur Hall; cbn [split_ws_go].
  - destruct cur; [constructor|]. constructor; [by apply Hcur | constructor].
  - destruct (isspace c) eqn:Hc.
    + destruct cur; [by apply IH|].
      constructor; [by apply Hcur | by apply IH].
    + apply IH. by constructor.
Qed.

Lemma dropwhile_idemp p s : dropwhile p (dropwhile p s) = dropwhile p s.
Proof.
  induction s as [|c s IH]; [done|]. cbn [dropwhile].
  destruct (p c) eqn:Hc; [done|]. cbn [dropwhile]. by rewrite Hc.
Qed.

Lemma dropwhile_head p s c s' : dropwhile p s = c :: s' -> p c = false.
Proof.
  induction s as [|x s IH]; [done|]. cbn [dropwhile].
  destruct (p x) eqn:Hx; [done|]. by intros [= <- _].
Qed.

(** Trimming on the right keeps a first character that is not white. *)
Lemma dropwhile_keeps_last p s c :
  p c = false -> exists l, dropwhile p (s ++ [c]) = l ++ [c].
Proof.
  intros Hc. induction s as [|x s [l IH]]; cbn [app dropwhile].
  - rewrite Hc. by exists [].
  - destruct (p x); [by exists l|]. by exists (x :: s).
Qed.

Lemma strip_idemp s : strip (strip s) = strip s.
Proof.
  unfold strip, lstrip, rstrip.
  destruct (dropwhile isspace s) as [|c t] eqn:Ht; [done|].
  pose proof (dropwhile_head _ _ _ _ Ht) as Hc.
  cbn [rev]. destruct (dropwhile_keeps_last isspace (rev t) c Hc) as [l Hl].
  rewrite Hl, rev_app_distr. cbn [rev app dropwhile]. rewrite Hc.
  change (rev (l ++ [c])) with (rev (l ++ [c])).
  replace (rev (c :: rev l)) with (l ++ [c])
    by (cbn [rev]; by rewrite rev_involutive).
  rewrite <- Hl, dropwhile_idemp, Hl, rev_app_distr. done.
Qed.

End strip_facts.

Section request_invariants.
Import PyStr Props.
Context (rt : runtime).

(** X3: the request object either is the empty one of a malformed first
    line, or holds the first two of exactly three tokens of the first
    line; then method and path are not empty and hold no white space. *)
Theorem parsed_request_line raw :
  let request := HTTPRequest._parse rt raw in
  (malformed raw /\ request = HTTPRequest.init)
  \/ (exists version,
        split_ws (first_line raw)
        = [HTTPRequest.method request; HTTPRequest.path request; version]
        /\ HTTPRequest.method request ≠ []
        /\ HTTPRequest.path request ≠ []
        /\ Forall (fun c => isspace c = false) (HTTPRequest.method request)
        /\ Forall (fun c => isspace c = false) (HTTPRequest.path request)).
Proof.
  cbn zeta. unfold malformed, first_line, HTTPRequest._parse.
  destruct (HTTPRequest.sections raw) as [headers_section body].
  cbn [fst]. unfold split.
  destruct (split_go CRLF headers_section [] 0) as [|first rest] eqn:Hl.
  { by apply split_go_never_nil in Hl. }
  cbn [hd].
  pose proof (split_ws_go_clean first [] ltac:(constructor)) as Hclean.
  fold (split_ws first) in Hclean.
  destruct (split_ws first) as [|m [|p [|v [|? ?]]]]; try (left; done).
  right. exists v. cbn [HTTPRequest.method HTTPRequest.path].
  apply Forall_cons in Hclean as [[Hm1 Hm2] Hclean].
  apply Forall_cons in Hclean as [[Hp1 Hp2] _]. done.
Qed.

Lemma parse_header_stripped hs line :
  (forall k v, hs !! k = Some v -> strip k = k /\ strip v = v) ->
  forall k v, HTTPRequest.parse_header rt hs line !! k = Some v ->
    strip k = k /\ strip v = v.
Proof.
  intros Hhs k v. unfold HTTPRequest.parse_header.
  destruct (contains line (lit ":")); [|apply Hhs].
  destruct (split1 (lit ":") line) as [|key [|value [|? ?]]]; try apply Hhs.
  rewrite lookup_insert. case_decide as Hk; [|apply Hhs].
  intros [= <-]. rewrite <- Hk. by rewrite !strip_idemp.
Qed.

(** X4: every header name and every header value of a parsed request is
    free of surrounding white space. *)
Theorem parsed_headers_stripped raw k v :
  HTTPRequest.headers (HTTPRequest._parse rt raw) !! k = Some v ->
  strip k = k /\ strip v = v.
Proof.
  unfold HTTPRequest._parse.
  destruct (HTTPRequest.sections raw) as [headers_section body].
  destruct (split CRLF headers_section) as [|first rest]; [done|].
  destruct (split_ws first) as [|m [|p [|ver [|? ?]]]]; try done.
  cbn [HTTPRequest.headers].
  assert (Hfold : forall lines hs,
            (forall k v, hs !! k = Some v -> strip k = k /\ strip v = v) ->
            forall k v, fold_left (HTTPRequest.parse_header rt) lines hs !! k
                        = Some v -> strip k = k /\ strip v = v).
  { induction lines as [|line lines IH]; intros hs Hhs; [exact Hhs|].
    cbn [fold_left]. apply IH. by apply parse_header_stripped. }
  apply Hfold. intros k' v'. by rewrite lookup_empty.
Qed.

End request_invariants.

(** * Further properties of the routes *)
Section route_facts.
Import PyStr FS Props HTTPServer.
Context (rt : runtime) (srv : HTTPServer.t).

(** X5: a request whose path does not begin with [/files/] is answered
    without a call to the file system. *)
Theorem other_routes_make_no_call raw :
  startswith (HTTPRequest.path (HTTPRequest._parse rt raw)) (lit "/files/")
  = false ->
  makes_no_call (handle_request rt srv raw).
Proof.
  intros Hpath. unfold handle_request, handle_request_try, makes_no_call.
  rewrite Hpath.
  repeat match goal with
         | |- context [if ?b then _ else _] => destruct b
         end; cbn [bind];
    match goal with
    | |- context [match ?r with Return _ => _ | Raise _ => _ end] =>
        destruct r
    end; eauto.
Qed.

(** Reading leaves the disk as it is. *)
Lemma read_file_keeps_disk cwd fh filename d :
  snd (run cwd (FileHandler.read_file rt fh filename) d) = d.
Proof.
  unfold FileHandler.read_file.
  destruct (FileHandler.is_safe_path rt fh _); cbn [negb run]; [|done].
  by destruct (os_open_rb cwd d _).
Qed.

(** The [except] clause of [handle_request] makes no call. *)
Lemma run_handle_request cwd raw d :
  snd (run cwd (handle_request rt srv raw) d)
  = snd (run cwd (handle_request_try rt srv raw) d).
Proof.
  unfold handle_request. rewrite run_bind.
  destruct (run cwd (handle_request_try rt srv raw) d) as [[response|e] d'];
    reflexivity.
Qed.

(** X6: only a POST can change the disk: after a request with any other
    method the files and directories are what they were. *)
Theorem only_post_changes_disk cwd raw d :
  HTTPRequest.method (HTTPRequest._parse rt raw) ≠ lit "POST" ->
  snd (run cwd (handle_request rt srv raw) d) = d.
Proof.
  intros Hmethod. rewrite run_handle_request. unfold handle_request_try.
  destruct (startswith _ (lit "/files/")).
  - unfold handle_file_request. case_bool_decide; [done|].
    unfold str_eqb at 1. rewrite (bool_decide_eq_false_2 _ Hmethod).
    destruct (str_eqb _ (lit "GET")); [|done].
    rewrite run_bind.
    pose proof (read_file_keeps_disk cwd (file_handler srv)
                  (drop 7 (HTTPRequest.path (HTTPRequest._parse rt raw))) d)
      as Hkeep.
    destruct (run cwd (FileHandler.read_file rt _ _) d)
      as [[content success] d'].
    cbn [snd] in Hkeep. subst d'.
    by destruct success, content.
  - repeat match goal with
           | |- context [if ?b then _ else _] => destruct b
           end; done.
Qed.


Lemma has_status_make_response status body content_type use_gzip response :
  make_response rt status body content_type use_gzip = Return response ->
  has_status status response.
Proof.
  intros [rest ->]%make_response_status.
  unfold has_status. rewrite !utf8_app.
  apply prefix_app, prefix_app, prefix_app_r. done.
Qed.

Lemma has_status_bare_self status : has_status status (bare_response status).
Proof.
  unfold has_status, bare_response. rewrite !utf8_app.
  apply prefix_app, prefix_app, prefix_app_r. done.
Qed.

(** X8: whatever the file system answers, [handle_request] returns a
    response, and the response opens with one of six status lines: 200,
    201, 400, 404, 405 or 500. *)
Theorem response_status_closed_set raw r :
  may_return (handle_request rt srv raw) r ->
  exists resp st,
    r = Return resp
    /\ st ∈ lit "200 OK" :: lit "201 Created" :: error_statuses
    /\ has_status st resp.
Proof.
  intros [(st & Hst & ->)|(body & content_type & use_gzip & resp & Hresp & ->)]
    %handle_request_returns.
  - exists (bare_response st), st. split; [done|].
    split; [|apply has_status_bare_self].
    rewrite elem_of_cons. by right.
  - exists resp, (lit "200 OK"). split; [done|].
    split; [apply elem_of_cons; by left|].
    by apply has_status_make_response in Hresp.
Qed.

End route_facts.

(** * Further properties of the file route *)
Section file_route_more.
Import PyStr FS Props HTTPServer.
Context (rt : runtime) (srv : HTTPServer.t).

(** X9: a name that [is_safe_path] refuses is answered without a call to
    the file system: 404 on GET, like a missing file, and 500 on a POST
    with a usable [content-length], like a failed write. *)
Theorem unsafe_path_answers request name :
  HTTPRequest.path request = lit "/files/" ++ name ->
  name ≠ [] ->
  FileHandler.is_safe_path rt (file_handler srv)
    (PosixPath.join (FileHandler.base_dir (file_handler srv)) name) = false ->
  (HTTPRequest.method request = lit "GET" ->
   handle_file_request rt srv request
   = Ret (Return (bare_response (lit "404 Not Found"))))
  /\ (HTTPRequest.method request = lit "POST" ->
      forall n,
        int (unicode_int rt)
          (default (lit "0")
             (HTTPRequest.headers request !! lit "content-length")) = Some n ->
        n ≠ 0%Z ->
        handle_file_request rt srv request
        = Ret (Return (bare_response (lit "500 Internal Server Error")))).
Proof.
  intros Hpath Hname Hunsafe.
  unfold handle_file_request. rewrite Hpath.
  change (drop 7 (lit "/files/" ++ name)) with name.
  rewrite (bool_decide_eq_false_2 _ Hname).
  destruct (unsafe_path_rejected rt (file_handler srv) name [] Hunsafe)
    as [Hread _].
  split.
  - intros ->. change (str_eqb (lit "GET") (lit "POST")) with false.
    change (str_eqb (lit "GET") (lit "GET")) with true. cbn match.
    rewrite Hread. reflexivity.
  - intros -> n Hn Hnz. change (str_eqb (lit "POST") (lit "POST")) with true.
    cbn match. rewrite Hn. destruct (Z.eqb_spec n 0); [done|].
    destruct (unsafe_path_rejected rt (file_handler srv) name
                (slice_to n (HTTPRequest.body request)) Hunsafe)
      as [_ Hwrite].
    rewrite Hwrite. reflexivity.
Qed.

(** X10: a negative [content-length] is not refused: the body without its
    last [-n] bytes is handed to [write_file], and the answer is 201 or
    500 as for any other write. *)
Theorem negative_content_length request name n :
  HTTPRequest.path request = lit "/files/" ++ name ->
  name ≠ [] ->
  HTTPRequest.method request = lit "POST" ->
  int (unicode_int rt)
    (default (lit "0") (HTTPRequest.headers request !! lit "content-length"))
  = Some n ->
  (n < 0)%Z ->
  let body := HTTPRequest.body request in
  handle_file_request rt srv request
  = bind (FileHandler.write_file rt (file_handler srv) name
            (take (length body - Z.to_nat (- n)) body))
      (fun ok =>
         if ok then Ret (Return (bare_response (lit "201 Created")))
         else Ret (Return (bare_response (lit "500 Internal Server Error")))).
Proof.
  intros Hpath Hname Hmethod Hn Hneg. cbn zeta.
  unfold handle_file_request. rewrite Hpath, Hmethod, Hn.
  change (drop 7 (lit "/files/" ++ name)) with name.
  rewrite (bool_decide_eq_false_2 _ Hname).
  change (str_eqb (lit "POST") (lit "POST")) with true. cbn match.
  destruct (Z.eqb_spec n 0); [lia|].
  unfold slice_to. destruct (Z.leb_spec 0 n); [lia|]. reflexivity.
Qed.

(** X11: a GET of [/files/<name>] gives 200 with the bytes of the file,
    as [application/octet-stream] and with gzip as negotiated, when the
    path passes the check and the file can be read; in every other case
    (a refused path, no such file, a directory) it gives 404. *)
Theorem get_file_answers cwd request name d :
  HTTPRequest.path request = lit "/files/" ++ name ->
  name ≠ [] ->
  HTTPRequest.method request = lit "GET" ->
  let fh := file_handler srv in
  let filepath := PosixPath.join (FileHandler.base_dir fh) name in
  let gzip := HTTPRequest.accepts_gzip rt request in
  fst (run cwd (handle_file_request rt srv request) d)
  = if FileHandler.is_safe_path rt fh filepath then
      match os_open_rb cwd d filepath with
      | Some content =>
          Return (wire_response (lit "200 OK")
                    (lit "application/octet-stream") gzip
                    (if gzip then gzip_compress rt content else content))
      | None => Return (bare_response (lit "404 Not Found"))
      end
    else Return (bare_response (lit "404 Not Found")).
Proof.
  intros Hpath Hname Hmethod. cbn zeta.
  unfold handle_file_request. rewrite Hpath, Hmethod.
  change (drop 7 (lit "/files/" ++ name)) with name.
  rewrite (bool_decide_eq_false_2 _ Hname).
  change (str_eqb (lit "GET") (lit "POST")) with false.
  change (str_eqb (lit "GET") (lit "GET")) with true. cbn match.
  unfold FileHandler.read_file.
  destruct (FileHandler.is_safe_path rt _ _); cbn [negb bind run]; [|done].
  destruct (os_open_rb cwd d _) as [content|]; cbn [fst]; [|done].
  by apply make_response_bytes.
Qed.

(** X12: a name that begins with a slash is not put under the base
    directory: the path that is checked and opened is the name itself. *)
Theorem absolute_filename_not_rerooted (fh : FileHandler.t) name :
  startswith name (lit "/") = true ->
  FileHandler.read_file rt fh name
  = if startswith (PosixPath.normpath name) (FileHandler.base_dir fh)
    then Open_rb name (fun r =>
           match r with
           | Some data => Ret (Some data, true)
           | None => Ret (None, false)
           end)
    else Ret (None, false).
Proof.
  intros Habs.
  unfold FileHandler.read_file, FileHandler.is_safe_path, PosixPath.abspath,
    PosixPath.join, PosixPath.sep.
  rewrite !Habs. by destruct (startswith (PosixPath.normpath name) _).
Qed.

End file_route_more.

(** * Further properties of the file store *)
Section disk_facts.
Import PyStr FS Props HTTPServer.
Context (rt : runtime).





Lemma run_write_read (fh : FileHandler.t) filename content d d' :
  run (getcwd rt) (FileHandler.write_file rt fh filename content) d
  = (true, d') ->
  run (getcwd rt) (FileHandler.read_file rt fh filename) d'
  = ((Some content, true), d').
Proof.
  intros (Hsafe & d1 & d2 & _ & Hopen & Hwrite)%write_file_success.
  unfold FileHandler.read_file. rewrite Hsafe. cbn [negb run].
  by rewrite (open_wb_then_rb _ _ _ _ _ _ Hopen Hwrite).
Qed.

Local Ltac refute_prefix H :=
  let k := fresh "k" in
  destruct H as [k H]; vm_compute in H; discriminate H.

Lemma created_is_no_error st :
  st ∈ error_statuses ->
  ~ has_status (lit "201 Created") (bare_response st).
Proof.
  unfold error_statuses, has_status. rewrite !elem_of_cons, !elem_of_nil.
  intros [->|[->|[->|[->|[]]]]] H; refute_prefix H.
Qed.

(** X14: when a POST to [/files/<name>] is answered 201, a GET of the same
    path on the resulting disk is answered 200 with the bytes that the
    POST took from its body. *)
Theorem post_then_get (srv : HTTPServer.t) post get name d resp d' :
  HTTPRequest.path post = lit "/files/" ++ name ->
  HTTPRequest.method post = lit "POST" ->
  HTTPRequest.path get = lit "/files/" ++ name ->
  HTTPRequest.method get = lit "GET" ->
  run (getcwd rt) (handle_file_request rt srv post) d = (Return resp, d') ->
  has_status (lit "201 Created") resp ->
  exists n,
    int (unicode_int rt)
      (default (lit "0") (HTTPRequest.headers post !! lit "content-length"))
    = Some n
    /\ let gzip := HTTPRequest.accepts_gzip rt get in
       let content := slice_to n (HTTPRequest.body post) in
       fst (run (getcwd rt) (handle_file_request rt srv get) d')
       = Return (wire_response (lit "200 OK")
                   (lit "application/octet-stream") gzip
                   (if gzip then gzip_compress rt content else content)).
Proof.
  intros Hpost Hmpost Hget Hmget.
  unfold handle_file_request. rewrite Hpost, Hget, Hmpost, Hmget.
  change (drop 7 (lit "/files/" ++ name)) with name.
  change (str_eqb (lit "POST") (lit "POST")) with true.
  change (str_eqb (lit "GET") (lit "POST")) with false.
  change (str_eqb (lit "GET") (lit "GET")) with true. cbn match.
  assert (H400 : forall r,
            r = make_response_default rt (lit "400 Bad Request")
            \/ r = except_ValueError rt
                     (make_response_default rt (lit "400 Bad Request")) ->
            r = Return resp -> ~ has_status (lit "201 Created") resp).
  { intros r Hr Heq.
    assert (r = Return (bare_response (lit "400 Bad Request"))) as ->.
    { destruct Hr as [-> | ->];
        by rewrite make_response_default_bare by reflexivity. }
    injection Heq as <-. apply created_is_no_error.
    unfold error_statuses. rewrite !elem_of_cons. auto. }
  assert (H500 : except_ValueError rt
                   (make_response_default rt (lit "500 Internal Server Error"))
                 = Return resp -> ~ has_status (lit "201 Created") resp).
  { rewrite make_response_default_bare by reflexivity. intros [= <-].
    apply created_is_no_error.
    unfold error_statuses. rewrite !elem_of_cons. auto 10. }
  case_bool_decide as Hname.
  { cbn [run]. intros Heq%(f_equal fst) Hst.
    by destruct (H400 _ (or_introl eq_refl) Heq). }
  destruct (int _ _) as [n|];
    [|cbn [run]; intros Heq%(f_equal fst) Hst;
      by destruct (H400 _ (or_introl eq_refl) Heq)].
  destruct (n =? 0)%Z;
    [cbn [run]; intros Heq%(f_equal fst) Hst;
     by destruct (H400 _ (or_intror eq_refl) Heq)|].
  rewrite run_bind.
  destruct (run (getcwd rt) (FileHandler.write_file rt _ name _) d)
    as [ok d1] eqn:Hwrite.
  destruct ok; cbn [run]; intros Heq Hst;
    [|by destruct (H500 (f_equal fst Heq))].
  apply (f_equal snd) in Heq. cbn [snd] in Heq. subst d1.
  exists n. split; [done|]. cbn zeta.
  rewrite run_bind, (run_write_read _ _ _ _ _ Hwrite). cbn [run fst].
  by apply make_response_bytes.
Qed.

End disk_facts.

(** * Further properties of the connection handler *)
Section framing_facts.
Import PyStr FS Props HTTPServer.
Context (rt : runtime).

(** Bytes that end with the first byte of a longer character (or with any
    byte from C2 up) do not decode. *)
Lemma decode_go_trailing_lead b :
  0xC2 <= b -> forall n l, (length l <= n)%nat -> decode_go (l ++ [b]) = None.
Proof.
  intros Hb.
  assert (Hlow : (b <? 0x80) = false) by (apply N.ltb_ge; lia).
  assert (Hcont : is_cont b = false).
  { unfold is_cont. replace (b <=? 0xBF) with false
      by (symmetry; apply N.leb_gt; lia). apply andb_false_r. }
  assert (Hone : decode_go [b] = None).
  { rewrite decode_go_unfold, Hlow. by repeat case_match. }
  induction n as [|n IH]; intros l Hl.
  { destruct l; [exact Hone | cbn in Hl; lia]. }
  destruct l as [|b0 r0]; [exact Hone|]. cbn [length] in Hl.
  pose proof (IH r0 ltac:(lia)) as H0.
  cbn [app]. rewrite decode_go_unfold.
  destruct r0 as [|b1 r1]; cbn [app] in *.
  { rewrite Hone, Hcont. by repeat case_match. }
  cbn [length] in Hl. pose proof (IH r1 ltac:(lia)) as H1.
  destruct r1 as [|b2 r2]; cbn [app] in *.
  { rewrite H0, Hone, Hcont, !andb_false_r. by repeat case_match. }
  cbn [length] in Hl. pose proof (IH r2 ltac:(lia)) as H2.
  destruct r2 as [|b3 r3]; cbn [app] in *.
  { rewrite H0, H1, Hone, Hcont, !andb_false_r. cbn [andb].
    by repeat case_match. }
  cbn [length] in Hl. pose proof (IH r3 ltac:(lia)) as H3.
  rewrite H0, H1, H2, H3. by repeat case_match.
Qed.

Lemma take_app_one {A} (l : list A) x rest :
  take (S (length l)) (l ++ x :: rest) = l ++ [x].
Proof. induction l as [|y l IH]; cbn; [by rewrite take_0 | by rewrite IH]. Qed.

(** X16: when the last byte that fits in the receive buffer is the first
    byte of a multi-byte character (any byte from C2 up), the request is
    not answered: the text is cut inside the character, decoding fails,
    and the socket is closed without a response, whatever follows; the
    decoding error leaves [handle_client], unless the close itself
    raises. *)
Theorem split_character_unanswered (srv : HTTPServer.t) (sock : socket.t)
    data lead rest :
  S (length data) = BUFFER_SIZE ->
  0xC2 <= Byte.to_N lead ->
  socket.recv sock BUFFER_SIZE
  = Return (take BUFFER_SIZE (data ++ lead :: rest)) ->
  exists e,
    handle_client rt sock srv = Ret ([Close], Raised e)
    /\ (socket.close sock = Return tt -> e = UnicodeDecodeError).
Proof.
  intros Hlen Hlead Hrecv. unfold handle_client.
  rewrite Hrecv, <- Hlen, take_app_one.
  unfold decode. rewrite map_app. cbn [map].
  rewrite (decode_go_trailing_lead _ Hlead (length (map Byte.to_N data)))
    by done.
  unfold finally_close.
  destruct (socket.close sock) as [[]|e].
  - by exists UnicodeDecodeError.
  - by exists e.
Qed.

Lemma normpath_absolute p :
  startswith p (lit "/") = true ->
  startswith (PosixPath.normpath p) (lit "/") = true.
Proof.
  intros Hp. unfold PosixPath.normpath, PosixPath.sep. rewrite Hp.
  case_bool_decide as Hnil; [by subst p|].
  destruct (_ && _); cbn [replicate concat app]; by case_bool_decide.
Qed.

(** X17: when the working directory of the process is absolute (as
    [os.getcwd] gives it), the base directory of a [FileHandler] is
    absolute too, whatever directory it was created with. *)
Theorem base_dir_absolute directory :
  startswith (getcwd rt) (lit "/") = true ->
  startswith (FileHandler.base_dir (FileHandler.init rt directory)) (lit "/")
  = true.
Proof.
  intros Hcwd. unfold FileHandler.init. cbn [FileHandler.base_dir].
  unfold PosixPath.abspath. apply normpath_absolute.
  unfold PosixPath.sep.
  destruct (startswith directory (lit "/")) eqn:Hdir; [done|].
  unfold PosixPath.join, PosixPath.sep. rewrite Hdir.
  destruct (_ || _); by apply startswith_app.
Qed.

End framing_facts.

(** * The bytes of a request *)
Section received_facts.
Import PyStr FS Props HTTPServer.
Context (rt : runtime).

(** In bytes that decode, a byte below 80 is a character of its own: the
    bytes before it and the bytes after it decode by themselves. *)
Lemma decode_go_split_ascii b l2 :
  b < 0x80 -> forall n l1 s,
  (length l1 <= n)%nat ->
  decode_go (l1 ++ b :: l2) = Some s ->
  exists s1 s2,
    decode_go l1 = Some s1 /\ decode_go l2 = Some s2 /\ s = s1 ++ b :: s2.
Proof.
  intros Hb.
  assert (Hlow : (b <? 0x80) = true) by (by apply N.ltb_lt).
  assert (Hcont : is_cont b = false).
  { unfold is_cont.
    replace (0x80 <=? b) with false by (symmetry; apply N.leb_gt; lia).
    done. }
  assert (Hnil : forall s, decode_go (b :: l2) = Some s ->
            exists s1 s2,
              decode_go [] = Some s1 /\ decode_go l2 = Some s2
              /\ s = s1 ++ b :: s2).
  { intros s. rewrite decode_go_unfold, Hlow.
    destruct (decode_go l2) as [s2|]; [|done]. intros [= <-].
    by exists [], s2. }
  induction n as [|n IH]; intros l1 s Hl.
  { destruct l1; [apply Hnil | cbn in Hl; lia]. }
  destruct l1 as [|b0 r0]; [apply Hnil|]. cbn [length] in Hl.
  cbn [app].
  rewrite (decode_go_unfold b0 (r0 ++ b :: l2)), (decode_go_unfold b0 r0).
  destruct (b0 <? 0x80).
  { destruct (decode_go (r0 ++ b :: l2)) as [s'|] eqn:Hr; [|done].
    intros [= <-].
    destruct (IH r0 s' ltac:(lia) Hr) as (s1 & s2 & -> & -> & ->).
    by exists (b0 :: s1), s2. }
  destruct ((0xC2 <=? b0) && (b0 <=? 0xDF)).
  { destruct r0 as [|b1 r1]; cbn [app].
    { by rewrite Hcont. }
    destruct (is_cont b1); [|done].
    destruct (decode_go (r1 ++ b :: l2)) as [s'|] eqn:Hr; [|done].
    intros [= <-]. cbn [length] in Hl.
    destruct (IH r1 s' ltac:(lia) Hr) as (s1 & s2 & -> & -> & ->).
    by eexists (_ :: s1), s2. }
  destruct ((0xE0 <=? b0) && (b0 <=? 0xEF)).
  { destruct r0 as [|b1 [|b2 r2]]; cbn [app].
    { destruct l2; [done|]. cbn zeta. by rewrite Hcont. }
    { cbn zeta. by rewrite Hcont, andb_false_r. }
    cbn zeta. destruct (_ && _ && _ && _); [|done].
    destruct (decode_go (r2 ++ b :: l2)) as [s'|] eqn:Hr; [|done].
    intros [= <-]. cbn [length] in Hl.
    destruct (IH r2 s' ltac:(lia) Hr) as (s1 & s2 & -> & -> & ->).
    by eexists (_ :: s1), s2. }
  destruct ((0xF0 <=? b0) && (b0 <=? 0xF4)); [|done].
  destruct r0 as [|b1 [|b2 [|b3 r3]]]; cbn [app].
  { destruct l2 as [|? [|? ?]]; [done|done|]. cbn zeta. by rewrite Hcont. }
  { destruct l2; [done|]. cbn zeta. by rewrite Hcont, andb_false_r. }
  { cbn zeta. by rewrite Hcont, andb_false_r. }
  cbn zeta. destruct (_ && _ && _ && _ && _); [|done].
  destruct (decode_go (r3 ++ b :: l2)) as [s'|] eqn:Hr; [|done].
  intros [= <-]. cbn [length] in Hl.
  destruct (IH r3 s' ltac:(lia) Hr) as (s1 & s2 & -> & -> & ->).
  by eexists (_ :: s1), s2.
Qed.

(** A blank line in the bytes is a blank line in the text: what is before
    it decodes to what is before it in the text. *)
Lemma decode_blank_line head rest raw :
  decode (head ++ [x0d; x0a; x0d; x0a] ++ rest) = Some raw ->
  exists h t, raw = h ++ (CRLF ++ CRLF) ++ t /\ utf8 h = head.
Proof.
  intros Hdecode. pose proof Hdecode as Hgo. unfold decode in Hgo.
  rewrite map_app in Hgo. cbn [map app] in Hgo.
  change (Byte.to_N x0d) with 13 in Hgo. change (Byte.to_N x0a) with 10 in Hgo.
  destruct (decode_go_split_ascii 13 _ ltac:(lia) _ _ _ (le_n _) Hgo)
    as (h & s2 & Hh & H2 & ->).
  destruct (decode_go_split_ascii 10 _ ltac:(lia) 0%nat [] _ (le_n _) H2)
    as (? & s3 & [= <-] & H3 & ->).
  destruct (decode_go_split_ascii 13 _ ltac:(lia) 0%nat [] _ (le_n _) H3)
    as (? & s4 & [= <-] & H4 & ->).
  destruct (decode_go_split_ascii 10 _ ltac:(lia) 0%nat [] _ (le_n _) H4)
    as (? & t & [= <-] & _ & ->).
  exists h, t. split; [done|]. by apply utf8_decode.
Qed.

Lemma contains_app h sep t : contains (h ++ sep ++ t) sep = true.
Proof.
  induction h as [|c h IH]; cbn [app].
  - pose proof (startswith_self sep t) as Hst.
    destruct (sep ++ t); cbn [contains]; by rewrite Hst.
  - cbn [contains]. rewrite IH. apply orb_true_r.
Qed.

Lemma app_shorter_prefix {A} (h h' a b : list A) :
  h ++ a = h' ++ b -> (length h <= length h')%nat -> exists x, h' = h ++ x.
Proof.
  revert h'; induction h as [|c h IH]; intros h' Heq Hlen.
  - by exists h'.
  - destruct h' as [|c' h']; [cbn in Hlen; lia|].
    cbn in Heq. injection Heq as <- Heq. cbn [length] in Hlen.
    destruct (IH h' Heq ltac:(lia)) as [x ->]. by exists x.
Qed.

Lemma length_utf8_prefix h x : (length (utf8 h) <= length (utf8 (h ++ x)))%nat.
Proof. rewrite utf8_app, length_app. lia. Qed.

Lemma parse_body raw :
  ~ malformed raw ->
  HTTPRequest.body (HTTPRequest._parse rt raw)
  = default [] (encode (snd (HTTPRequest.sections raw))).
Proof.
  unfold malformed, first_line, HTTPRequest._parse.
  destruct (HTTPRequest.sections raw) as [headers_section body].
  cbn [fst snd]. unfold split.
  destruct (split_go CRLF headers_section [] 0) as [|first rest] eqn:Hl.
  { by apply split_go_never_nil in Hl. }
  cbn [hd]. intros Hlen.
  destruct (split_ws first) as [|m [|p [|v [|? ?]]]]; try done;
    destruct Hlen; cbn [length]; lia.
Qed.

(** X18: the body of a well-formed request is, byte for byte, what was
    received after the first blank line (the bytes 0D 0A 0D 0A): decoding
    the bytes to text and encoding the body again loses nothing.  When
    the text has no blank line, the bytes have none either, and the body
    is empty. *)
Theorem received_body_is_suffix data raw :
  decode data = Some raw ->
  ~ malformed raw ->
  let request := HTTPRequest._parse rt raw in
  let blank := [x0d; x0a; x0d; x0a] in
  (contains raw (CRLF ++ CRLF) = true ->
   exists head,
     data = head ++ blank ++ HTTPRequest.body request
     /\ forall head' rest',
          data = head' ++ blank ++ rest' ->
          (length head <= length head')%nat)
  /\ (contains raw (CRLF ++ CRLF) = false ->
      HTTPRequest.body request = []
      /\ forall head rest, data ≠ head ++ blank ++ rest).
Proof.
  intros Hdecode Hgood. cbn zeta. rewrite (parse_body raw Hgood).
  unfold HTTPRequest.sections.
  destruct (split1_spec (CRLF ++ CRLF) raw)
    as [[Hc Hs]|(Hc & h & t & Hs & Heq & Hmin)]; [done| |]; rewrite Hc.
  - split; [done|]. intros _. split; [done|].
    intros head rest ->.
    destruct (decode_blank_line _ _ _ Hdecode) as (h & t & -> & _).
    by rewrite contains_app in Hc.
  - split; [|done]. intros _. rewrite Hs. cbn [snd].
    pose proof (encode_decode data raw Hdecode) as Hraw.
    apply encode_Some in Hraw as [Hscalar Hdata].
    assert (Ht : encode t = Some (utf8 t)).
    { apply encode_scalar. rewrite Heq, !forallb_app in Hscalar.
      by apply andb_true_iff in Hscalar as [_ [_ ?]%andb_true_iff]. }
    rewrite Ht. cbn [default]. exists (utf8 h). split.
    { rewrite Hdata, Heq, !utf8_app. reflexivity. }
    intros head' rest' Hdata'. rewrite Hdata' in Hdecode.
    destruct (decode_blank_line _ _ _ Hdecode) as (h' & t' & Heq' & <-).
    pose proof (Hmin h' t' Heq') as Hlen.
    rewrite Heq, <- !app_assoc in Heq'.
    destruct (app_shorter_prefix _ _ _ _ Heq' Hlen) as [x ->].
    apply length_utf8_prefix.
Qed.

End received_facts.
(** * The further properties at concrete requests *)
Section more_examples.
Import PyStr FS Props HTTPServer.

Local Ltac not_in_literal :=
  let H := fresh in
  cbn [lit]; intros H;
  repeat (apply elem_of_cons in H as [H|H]; [discriminate H|]);
  by apply elem_of_nil in H.

Lemma parse_header_first_colon_witness :
  HTTPRequest.parse_header demo_runtime ∅ (lit "Host: localhost:4221")
  !! lit "host"
  = Some (lit "localhost:4221").
Proof.
  assert (Hname : 58 ∉ lit "Host") by not_in_literal.
  exact (proj1 (proj2 (parse_header_first_colon demo_runtime ∅ (lit "Host")
                         (lit " localhost:4221") Hname))).
Defined.

Lemma parsed_headers_stripped_witness :
  let raw := text ["GET / HTTP/1.1"; "  User-Agent :   curl/8.0  "]%string "" in
  HTTPRequest.headers (HTTPRequest._parse demo_runtime raw) !! lit "user-agent"
  = Some (lit "curl/8.0")
  /\ strip (lit "user-agent") = lit "user-agent"
  /\ strip (lit "curl/8.0") = lit "curl/8.0".
Proof.
  cbn zeta.
  set (raw := text ["GET / HTTP/1.1"; "  User-Agent :   curl/8.0  "]%string "").
  assert (H : HTTPRequest.headers (HTTPRequest._parse demo_runtime raw)
              !! lit "user-agent" = Some (lit "curl/8.0"))
    by (vm_compute; reflexivity).
  split; [exact H|].
  exact (parsed_headers_stripped demo_runtime raw _ _ H).
Defined.

Lemma other_routes_make_no_call_witness :
  makes_no_call
    (handle_request demo_runtime demo_server
       (text ["GET /user-agent HTTP/1.1"; "User-Agent: curl/8.0"]%string "")).
Proof.
  apply other_routes_make_no_call. vm_compute. reflexivity.
Defined.

Lemma only_post_changes_disk_witness :
  let raw := text ["GET /files/../tmpevil/x HTTP/1.1"]%string "" in
  HTTPRequest.method (HTTPRequest._parse demo_runtime raw) = lit "GET"
  /\ snd (run (getcwd demo_runtime)
            (handle_request demo_runtime demo_server raw) demo_disk)
     = demo_disk.
Proof.
  cbn zeta. split; [vm_compute; reflexivity|].
  apply only_post_changes_disk. vm_compute. discriminate.
Defined.


Lemma response_status_closed_set_witness :
  exists resp st,
    fst (run (getcwd demo_runtime)
           (handle_request demo_runtime demo_server
              (text ["PUT /files/a HTTP/1.1"]%string ""))
           demo_disk)
    = Return resp
    /\ st ∈ lit "200 OK" :: lit "201 Created" :: error_statuses
    /\ has_status st resp.
Proof.
  apply (response_status_closed_set demo_runtime demo_server
           (text ["PUT /files/a HTTP/1.1"]%string "")).
  apply run_may_return.
Defined.

Lemma unsafe_path_answers_witness :
  let request :=
    HTTPRequest._parse demo_runtime
      (text ["GET /files/../etc/passwd HTTP/1.1"]%string "") in
  HTTPRequest.path request = lit "/files/" ++ lit "../etc/passwd"
  /\ handle_file_request demo_runtime demo_server request
     = Ret (Return (bare_response (lit "404 Not Found"))).
Proof.
  cbn zeta.
  set (request := HTTPRequest._parse demo_runtime _).
  assert (Hpath : HTTPRequest.path request = lit "/files/" ++ lit "../etc/passwd")
    by (vm_compute; reflexivity).
  split; [exact Hpath|].
  assert (Hname : lit "../etc/passwd" ≠ []) by discriminate.
  refine (proj1 (unsafe_path_answers demo_runtime demo_server request
                   (lit "../etc/passwd") Hpath Hname _) _);
    vm_compute; reflexivity.
Defined.

Lemma negative_content_length_witness :
  let request :=
    HTTPRequest._parse demo_runtime
      (text ["POST /files/f HTTP/1.1"; "Content-Length: -2"]%string "hello") in
  handle_file_request demo_runtime demo_server request
  = bind (FileHandler.write_file demo_runtime (file_handler demo_server)
            (lit "f") (utf8 (lit "hel")))
      (fun ok =>
         if ok then Ret (Return (bare_response (lit "201 Created")))
         else Ret (Return (bare_response (lit "500 Internal Server Error")))).
Proof.
  cbn zeta.
  set (request := HTTPRequest._parse demo_runtime _).
  assert (Hname : lit "f" ≠ []) by discriminate.
  refine (negative_content_length demo_runtime demo_server request (lit "f")
            (-2) _ Hname _ _ _); try (vm_compute; reflexivity).
Defined.

Lemma get_file_answers_witness :
  let request :=
    HTTPRequest._parse demo_runtime
      (text ["GET /files/missing.txt HTTP/1.1"]%string "") in
  fst (run (getcwd demo_runtime)
         (handle_file_request demo_runtime demo_server request) demo_disk)
  = Return (bare_response (lit "404 Not Found")).
Proof.
  cbn zeta.
  set (request := HTTPRequest._parse demo_runtime _).
  assert (Hname : lit "missing.txt" ≠ []) by discriminate.
  refine (get_file_answers demo_runtime demo_server (getcwd demo_runtime)
            request (lit "missing.txt") demo_disk _ Hname _);
    vm_compute; reflexivity.
Defined.

Lemma absolute_filename_not_rerooted_witness :
  FileHandler.read_file demo_runtime (file_handler demo_server)
    (lit "/etc/passwd")
  = Ret (None, false)
  /\ exists k,
       FileHandler.read_file demo_runtime (file_handler demo_server)
         (lit "/tmpevil/x")
       = Open_rb (lit "/tmpevil/x") k.
Proof.
  split.
  - rewrite (absolute_filename_not_rerooted demo_runtime
               (file_handler demo_server) (lit "/etc/passwd"))
      by (vm_compute; reflexivity).
    vm_compute. reflexivity.
  - rewrite (absolute_filename_not_rerooted demo_runtime
               (file_handler demo_server) (lit "/tmpevil/x"))
      by (vm_compute; reflexivity).
    eexists. vm_compute. reflexivity.
Defined.


Lemma post_then_get_witness :
  let post :=
    HTTPRequest._parse demo_runtime
      (text ["POST /files/test.txt HTTP/1.1"; "Content-Length: 5"]%string
         "hello") in
  let get :=
    HTTPRequest._parse demo_runtime
      (text ["GET /files/test.txt HTTP/1.1"]%string "") in
  let posted :=
    run (getcwd demo_runtime)
      (handle_file_request demo_runtime demo_server post) demo_disk in
  fst posted = Return (bare_response (lit "201 Created"))
  /\ exists n,
       fst (run (getcwd demo_runtime)
              (handle_file_request demo_runtime demo_server get) (snd posted))
       = Return (wire_response (lit "200 OK")
                   (lit "application/octet-stream") false
                   (slice_to n (utf8 (lit "hello")))).
Proof.
  cbn zeta.
  set (post := HTTPRequest._parse demo_runtime
                 (text ["POST /files/test.txt HTTP/1.1"; "Content-Length: 5"]%string
                    "hello")).
  set (get := HTTPRequest._parse demo_runtime
                (text ["GET /files/test.txt HTTP/1.1"]%string "")).
  set (posted := run (getcwd demo_runtime)
                   (handle_file_request demo_runtime demo_server post)
                   demo_disk).
  assert (Hresp : fst posted = Return (bare_response (lit "201 Created")))
    by (vm_compute; reflexivity).
  split; [exact Hresp|].
  assert (Hstatus : has_status (lit "201 Created")
                      (bare_response (lit "201 Created"))).
  { exists (utf8 (lit "Content-Type: text/plain" ++ CRLF
                  ++ lit "Content-Length: 0" ++ CRLF ++ CRLF)).
    vm_compute. reflexivity. }
  assert (Hppath : HTTPRequest.path post = lit "/files/" ++ lit "test.txt")
    by (vm_compute; reflexivity).
  assert (Hpmethod : HTTPRequest.method post = lit "POST")
    by (vm_compute; reflexivity).
  assert (Hgpath : HTTPRequest.path get = lit "/files/" ++ lit "test.txt")
    by (vm_compute; reflexivity).
  assert (Hgmethod : HTTPRequest.method get = lit "GET")
    by (vm_compute; reflexivity).
  assert (Hrun : run (getcwd demo_runtime)
                   (handle_file_request demo_runtime demo_server post)
                   demo_disk
                 = (Return (bare_response (lit "201 Created")), snd posted)).
  { rewrite <- Hresp. apply surjective_pairing. }
  destruct (post_then_get demo_runtime demo_server post get (lit "test.txt")
              demo_disk _ (snd posted)
              Hppath Hpmethod Hgpath Hgmethod Hrun Hstatus) as (n & _ & Hget).
  exists n. exact Hget.
Defined.

Lemma split_character_unanswered_witness :
  let ascii := replicate 4095 x41 in
  is_Some (decode (ascii ++ [xc3; xa9]))
  /\ handle_client demo_runtime (peer (ascii ++ [xc3; xa9])) demo_server
     = Ret ([Close], Raised UnicodeDecodeError).
Proof.
  cbn zeta. split; [vm_compute; eauto|].
  destruct (split_character_unanswered demo_runtime demo_server
              (peer (replicate 4095 x41 ++ [xc3; xa9]))
              (replicate 4095 x41) xc3 [xa9]) as (e & -> & He).
  - vm_compute. reflexivity.
  - vm_compute. discriminate.
  - reflexivity.
  - by rewrite He.
Defined.

Lemma base_dir_absolute_witness :
  startswith
    (FileHandler.base_dir (FileHandler.init demo_runtime (lit "data/../www")))
    (lit "/")
  = true.
Proof. apply base_dir_absolute. vm_compute. reflexivity. Defined.

Lemma received_body_is_suffix_witness :
  let data :=
    utf8 (text ["POST /files/f HTTP/1.1"; "Content-Length: 3"]%string
            "a" ++ CRLF ++ CRLF)
    ++ [xe2; x82; xac] in
  let raw :=
    text ["POST /files/f HTTP/1.1"; "Content-Length: 3"]%string "a"
    ++ CRLF ++ CRLF ++ [0x20AC] in
  decode data = Some raw
  /\ HTTPRequest.body (HTTPRequest._parse demo_runtime raw)
     = [x61; x0d; x0a; x0d; x0a; xe2; x82; xac]
  /\ exists head,
       data = head ++ [x0d; x0a; x0d; x0a]
              ++ [x61; x0d; x0a; x0d; x0a; xe2; x82; xac]
       /\ forall head' rest',
            data = head' ++ [x0d; x0a; x0d; x0a] ++ rest' ->
            (length head <= length head')%nat.
Proof.
  cbn zeta.
  set (data := utf8 (text ["POST /files/f HTTP/1.1"; "Content-Length: 3"]%string
                       "a" ++ CRLF ++ CRLF)
               ++ [xe2; x82; xac]).
  set (raw := text ["POST /files/f HTTP/1.1"; "Content-Length: 3"]%string "a"
              ++ CRLF ++ CRLF ++ [0x20AC]).
  assert (Hraw : decode data = Some raw) by (vm_compute; reflexivity).
  split; [exact Hraw|].
  assert (Hgood : ~ malformed raw) by (unfold malformed; vm_compute; lia).
  assert (Hblank : contains raw (CRLF ++ CRLF) = true)
    by (vm_compute; reflexivity).
  assert (Hbody : HTTPRequest.body (HTTPRequest._parse demo_runtime raw)
                  = [x61; x0d; x0a; x0d; x0a; xe2; x82; xac])
    by (vm_compute; reflexivity).
  split; [exact Hbody|]. rewrite <- Hbody.
  exact (proj1 (received_body_is_suffix demo_runtime data raw Hraw Hgood)
           Hblank).
Defined.

End more_examples.
(** * Names that the check accepts *)
Section plain_names.
Import PyStr FS Props HTTPServer.
Context (rt : runtime).

Lemma plain_no_slash comp : plain comp -> 47 ∉ comp.
Proof. by intros (_ & _ & _ & ?). Qed.

Lemma str_eqb_false (a b : str) : a ≠ b -> str_eqb a b = false.
Proof. intros H. by apply bool_decide_eq_false_2. Qed.

(** A plain component is pushed by the loop of [normpath]. *)
Lemma norm_step_plain k stack comp :
  plain comp -> PosixPath.norm_step k stack comp = comp :: stack.
Proof.
  intros (Hne & Hdot & Hdots & _). unfold PosixPath.norm_step.
  by rewrite !str_eqb_false by done.
Qed.

Lemma fold_norm_step_plain k comps : forall stack,
  Forall plain comps ->
  fold_left (PosixPath.norm_step k) comps stack = rev comps ++ stack.
Proof.
  induction comps as [|c comps IH]; intros stack Hall; [done|].
  apply Forall_cons in Hall as [Hc Hall]. cbn [fold_left rev].
  rewrite norm_step_plain, IH by done. by rewrite <- app_assoc.
Qed.

(** In an absolute path the loop of [normpath] keeps plain components
    only. *)
Lemma norm_step_keeps_plain k stack comp :
  k ≠ 0%nat -> 47 ∉ comp -> Forall plain stack ->
  Forall plain (PosixPath.norm_step k stack comp).
Proof.
  intros Hk Hslash Hstack. unfold PosixPath.norm_step.
  unfold str_eqb at 1 2.
  case_bool_decide as Hempty; [done|].
  case_bool_decide as Hdot; [done|]. cbn [orb].
  unfold str_eqb at 1. case_bool_decide as Hdots; cbn [negb orb].
  2:{ by constructor. }
  replace (k =? 0)%nat with false by (symmetry; by apply Nat.eqb_neq).
  cbn [andb orb].
  destruct stack as [|top stack]; [done|].
  apply Forall_cons in Hstack as [(_ & _ & Htop & _) Hstack].
  by rewrite str_eqb_false.
Qed.

Lemma fold_norm_step_keeps_plain k comps : forall stack,
  k ≠ 0%nat -> Forall (fun comp : str => 47 ∉ comp) comps ->
  Forall plain stack ->
  Forall plain (fold_left (PosixPath.norm_step k) comps stack).
Proof.
  induction comps as [|c comps IH]; intros stack Hk Hall Hstack; [done|].
  apply Forall_cons in Hall as [Hc Hall]. cbn [fold_left].
  apply IH; [done|done|]. by apply norm_step_keeps_plain.
Qed.

(** The number of slashes that [normpath] keeps in front. *)
Lemma initial_slashes_cases p :
  startswith p PosixPath.sep = true ->
  exists k, (k = 1 \/ k = 2)%nat /\
    exists comps,
      Forall plain comps
      /\ PosixPath.normpath p = slashes k ++ PyStr.join PosixPath.sep comps.
Proof.
  intros Habs. unfold PosixPath.normpath. rewrite Habs.
  case_bool_decide as Hnil; [by subst p|]. cbn zeta.
  set (k := if _ && _ then 2%nat else 1%nat).
  assert (Hk : (k = 1 \/ k = 2)%nat) by (unfold k; destruct (_ && _); auto).
  exists k. split; [done|].
  exists (rev (fold_left (PosixPath.norm_step k)
                 (split PosixPath.sep p) [])).
  split.
  - apply Forall_rev, fold_norm_step_keeps_plain; [lia| |constructor].
    apply split_free.
  - case_bool_decide as Hempty; [|done].
    destruct Hk as [-> | ->]; discriminate Hempty.
Qed.

Lemma join_plain_head comps :
  comps ≠ [] -> Forall plain comps ->
  exists c t, PyStr.join PosixPath.sep comps = c :: t /\ c ≠ 47.
Proof.
  destruct comps as [|comp comps]; [done|]. intros _ Hall.
  apply Forall_cons in Hall as [(Hne & _ & _ & Hslash) _].
  destruct comp as [|c comp]; [done|].
  exists c. rewrite not_elem_of_cons in Hslash. destruct Hslash as [Hc _].
  destruct comps as [|comp2 comps].
  - exists comp. split; [done | congruence].
  - eexists. rewrite join_cons by done. split; [reflexivity | congruence].
Qed.

Lemma join_plain_last comps :
  comps ≠ [] -> Forall plain comps ->
  exists l c, PyStr.join PosixPath.sep comps = l ++ [c] /\ c ≠ 47.
Proof.
  induction comps as [|comp comps IH]; [done|]. intros _ Hall.
  apply Forall_cons in Hall as [(Hne & _ & _ & Hslash) Hall].
  destruct comps as [|comp2 comps].
  - cbn [PyStr.join]. destruct comp as [|c l _] using rev_ind; [done|].
    exists l, c. split; [done|]. intros ->. destruct Hslash.
    rewrite elem_of_app, list_elem_of_singleton. by right.
  - destruct (IH ltac:(done) Hall) as (l & c & Hl & Hc).
    exists (comp ++ PosixPath.sep ++ l), c. split; [|done].
    rewrite join_cons by done. rewrite Hl. by rewrite <- !app_assoc.
Qed.

Lemma join_app_plain a b :
  a ≠ [] -> b ≠ [] ->
  PyStr.join PosixPath.sep (a ++ b)
  = PyStr.join PosixPath.sep a ++ PosixPath.sep ++ PyStr.join PosixPath.sep b.
Proof.
  intros Ha Hb. induction a as [|x a IH]; [done|].
  destruct a as [|y a].
  - cbn [app]. by rewrite join_cons.
  - rewrite <- app_comm_cons, !join_cons by done.
    rewrite IH by done. by rewrite <- !app_assoc.
Qed.

(** A path of one or two slashes and plain components is what [normpath]
    returns for it. *)
Lemma normpath_plain k comps :
  (k = 1 \/ k = 2)%nat -> comps ≠ [] -> Forall plain comps ->
  PosixPath.normpath (slashes k ++ PyStr.join PosixPath.sep comps)
  = slashes k ++ PyStr.join PosixPath.sep comps.
Proof.
  intros Hk Hne Hall.
  destruct (join_plain_head comps Hne Hall) as (c & t & Hjoin & Hc).
  assert (Hsplit : split PosixPath.sep
                     (slashes k ++ PyStr.join PosixPath.sep comps)
                   = replicate k [] ++ comps).
  { assert (Heq : slashes k ++ PyStr.join PosixPath.sep comps
                  = PyStr.join PosixPath.sep (replicate k [] ++ comps)).
    { destruct Hk as [-> | ->]; cbn [replicate concat app];
        rewrite ?join_cons by (by destruct comps); reflexivity. }
    rewrite Heq. apply split_join.
    - destruct Hk as [-> | ->]; done.
    - apply Forall_app. split.
      + apply Forall_replicate. apply not_elem_of_nil.
      + eapply Forall_impl; [exact Hall|]. apply plain_no_slash. }
  unfold PosixPath.normpath. rewrite Hsplit.
  assert (Hslashes :
    (if startswith (slashes k ++ PyStr.join PosixPath.sep comps) PosixPath.sep
     then if startswith (slashes k ++ PyStr.join PosixPath.sep comps) (lit "//")
             && negb (startswith (slashes k ++ PyStr.join PosixPath.sep comps)
                        (lit "///"))
          then 2%nat else 1%nat
     else 0%nat) = k).
  { rewrite Hjoin.
    assert (Hc' : (47 =? c) = false) by (apply N.eqb_neq; congruence).
    change PosixPath.sep with [47]. change (lit "//") with [47; 47].
    change (lit "///") with [47; 47; 47].
    destruct Hk as [-> | ->]; cbn [replicate concat app startswith];
      by rewrite ?N.eqb_refl, ?Hc'. }
  rewrite Hslashes.
  case_bool_decide as Hnil.
  { destruct Hk as [-> | ->]; discriminate Hnil. }
  cbn zeta. rewrite fold_left_app.
  assert (Hskip : fold_left (PosixPath.norm_step k) (replicate k []) [] = []).
  { destruct Hk as [-> | ->]; reflexivity. }
  rewrite Hskip, fold_norm_step_plain, app_nil_r, rev_involutive by done.
  case_bool_decide as Hempty; [|done].
  destruct Hk as [-> | ->]; discriminate Hempty.
Qed.

(** X19: a file name made of plain components (not empty, not [.] or
    [..], without a slash) is never refused: joined to the base directory
    it is a normal path already, which begins with the base directory, so
    that [is_safe_path] accepts it and [read_file] opens it. *)
Theorem plain_names_accepted directory names :
  startswith (getcwd rt) (lit "/") = true ->
  names ≠ [] ->
  Forall plain names ->
  let fh := FileHandler.init rt directory in
  let filename := PyStr.join (lit "/") names in
  let filepath := PosixPath.join (FileHandler.base_dir fh) filename in
  PosixPath.abspath (getcwd rt) filepath = filepath
  /\ FileHandler.is_safe_path rt fh filepath = true
  /\ FileHandler.read_file rt fh filename
     = Open_rb filepath (fun r =>
         match r with
         | Some data => Ret (Some data, true)
         | None => Ret (None, false)
         end).
Proof.
  intros Hcwd Hne Hall. cbn zeta.
  unfold FileHandler.init. cbn [FileHandler.base_dir].
  assert (Habs : exists q, startswith q PosixPath.sep = true
                   /\ PosixPath.abspath (getcwd rt) directory
                      = PosixPath.normpath q).
  { unfold PosixPath.abspath.
    destruct (startswith directory PosixPath.sep) eqn:Hdir; [by eexists|].
    eexists. split; [|reflexivity].
    unfold PosixPath.join. rewrite Hdir.
    destruct (_ || _); by apply startswith_app. }
  destruct Habs as (q & Hq & ->).
  destruct (initial_slashes_cases q Hq) as (k & Hk & comps & Hcomps & ->).
  destruct (join_plain_head names Hne Hall) as (c & t & Hjoin & Hc).
  change (lit "/") with PosixPath.sep.
  assert (Hpath : PosixPath.join (slashes k ++ PyStr.join PosixPath.sep comps)
                    (PyStr.join PosixPath.sep names)
                  = slashes k ++ PyStr.join PosixPath.sep (comps ++ names)
                    /\ startswith
                         (slashes k ++ PyStr.join PosixPath.sep (comps ++ names))
                         (slashes k ++ PyStr.join PosixPath.sep comps) = true).
  { assert (Hrel : startswith (PyStr.join PosixPath.sep names) PosixPath.sep
                   = false).
    { rewrite Hjoin. change PosixPath.sep with [47].
      rewrite startswith_single. apply N.eqb_neq. congruence. }
    unfold PosixPath.join. rewrite Hrel.
    destruct comps as [|comp comps].
    - cbn [PyStr.join app]. rewrite !app_nil_r.
      replace (bool_decide (slashes k = [])
               || startswith (rev (slashes k)) PosixPath.sep)
        with true by (by destruct Hk as [-> | ->]).
      split; [done|]. apply startswith_self.
    - destruct (join_plain_last (comp :: comps) ltac:(done) Hcomps)
        as (l & x & Hl & Hx).
      assert (Hend : startswith
                       (rev (slashes k
                             ++ PyStr.join PosixPath.sep (comp :: comps)))
                       PosixPath.sep = false).
      { rewrite Hl, app_assoc, rev_app_distr. cbn [rev app].
        change PosixPath.sep with [47]. rewrite startswith_single.
        apply N.eqb_neq. congruence. }
      rewrite Hend, bool_decide_eq_false_2
        by (destruct Hk as [-> | ->]; done).
      cbn [orb]. rewrite join_app_plain by done.
      rewrite <- !app_assoc. split; [done|].
      rewrite app_assoc. apply startswith_self. }
  destruct Hpath as [Hpath Hprefix]. rewrite Hpath.
  assert (Hnorm : PosixPath.abspath (getcwd rt)
                    (slashes k ++ PyStr.join PosixPath.sep (comps ++ names))
                  = slashes k ++ PyStr.join PosixPath.sep (comps ++ names)).
  { unfold PosixPath.abspath.
    replace (startswith (slashes k ++ _) PosixPath.sep) with true
      by (by destruct Hk as [-> | ->]).
    apply normpath_plain; [done| |].
    - by destruct comps.
    - by apply Forall_app. }
  assert (Hsafe : FileHandler.is_safe_path rt
                    {| FileHandler.base_dir :=
                         slashes k ++ PyStr.join PosixPath.sep comps |}
                    (slashes k ++ PyStr.join PosixPath.sep (comps ++ names))
                  = true).
  { unfold FileHandler.is_safe_path. cbn [FileHandler.base_dir].
    by rewrite Hnorm. }
  split; [exact Hnorm|]. split; [exact Hsafe|].
  unfold FileHandler.read_file. cbn [FileHandler.base_dir].
  by rewrite Hpath, Hsafe.
Qed.

End plain_names.

Section plain_examples.
Import PyStr FS Props HTTPServer.

Lemma plain_names_accepted_witness :
  FileHandler.is_safe_path demo_runtime (file_handler demo_server)
    (lit "/tmp/a/b.txt") = true
  /\ exists k,
       FileHandler.read_file demo_runtime (file_handler demo_server)
         (lit "a/b.txt")
       = Open_rb (lit "/tmp/a/b.txt") k.
Proof.
  assert (Hcwd : startswith (getcwd demo_runtime) (lit "/") = true)
    by reflexivity.
  assert (Hnames : Forall plain [lit "a"; lit "b.txt"]).
  { repeat constructor; try discriminate;
      intros H; cbn [lit] in H;
      repeat (apply elem_of_cons in H as [H|H]; [discriminate H|]);
      by apply elem_of_nil in H. }
  destruct (plain_names_accepted demo_runtime (lit "/tmp")
              [lit "a"; lit "b.txt"] Hcwd ltac:(done) Hnames)
    as (_ & Hsafe & Hread).
  split; [exact Hsafe|]. eexists. exact Hread.
Defined.

End plain_examples.
(** * The header block on the wire *)
Section header_facts.
Import PyStr FS Props HTTPServer.
Context (rt : runtime).

Lemma split_go_crlf_free t s cur :
  CR ∉ t ->
  split_go CRLF (t ++ s) cur 0 = split_go CRLF s (rev t ++ cur) 0.
Proof.
  revert cur; induction t as [|x t IH]; intros cur Ht; [done|].
  rewrite not_elem_of_cons in Ht. destruct Ht as [Hx Ht].
  rewrite <- app_comm_cons. cbn [split_go startswith CRLF].
  replace (CR =? x) with false by (symmetry; by apply N.eqb_neq).
  cbn [andb]. rewrite IH by done. cbn [rev]. by rewrite <- app_assoc.
Qed.

Lemma split_go_crlf s cur :
  split_go CRLF (CRLF ++ s) cur 0 = rev cur :: split_go CRLF s [] 0.
Proof. reflexivity. Qed.

(** [split] at CRLF undoes [join] with CRLF on lines without a carriage
    return. *)
Lemma split_go_join_crlf lines cur :
  lines ≠ [] -> Forall (fun line : str => CR ∉ line) lines ->
  split_go CRLF (PyStr.join CRLF lines) cur 0 =
    match lines with
    | [] => []
    | t :: lines' => (rev cur ++ t) :: lines'
    end.
Proof.
  revert cur; induction lines as [|t lines IH]; intros cur Hne Hfree; [done|].
  apply Forall_cons in Hfree as [Ht Hfree].
  destruct lines as [|t2 lines].
  - cbn [PyStr.join]. rewrite <- (app_nil_r t) at 1.
    rewrite split_go_crlf_free by done.
    cbn [split_go]. by rewrite rev_app_distr, rev_involutive.
  - rewrite join_cons by done. rewrite split_go_crlf_free by done.
    rewrite split_go_crlf, rev_app_distr, rev_involutive. f_equal.
    by rewrite IH.
Qed.

Lemma split_join_crlf lines :
  lines ≠ [] -> Forall (fun line : str => CR ∉ line) lines ->
  split CRLF (PyStr.join CRLF lines) = lines.
Proof.
  intros Hne Hfree. unfold split. rewrite split_go_join_crlf by done.
  by destruct lines.
Qed.

Lemma digits_no_cr ds :
  Forall (fun c => isdigit c = true) ds -> CR ∉ ds.
Proof.
  induction 1 as [|c ds Hc _ IH]; [apply not_elem_of_nil|].
  apply not_elem_of_cons. split; [|done].
  apply isdigit_bounds in Hc. unfold CR. lia.
Qed.

Lemma str_of_nat_no_cr n : CR ∉ str_of_nat n.
Proof.
  unfold str_of_nat.
  destruct (str_of_nat_go_spec n n [] (le_n n)) as (ds & -> & _ & Hds & _).
  rewrite app_nil_r. by apply digits_no_cr.
Qed.

Local Ltac no_cr_literal :=
  let H := fresh in
  cbn [lit]; intros H;
  repeat (apply elem_of_cons in H as [H|H]; [discriminate H|]);
  by apply elem_of_nil in H.

(** X15: the header block of a response reads back as it was written.
    When the status and the content type hold no carriage return (as at
    every call in the source), the text before the body, cut at CRLF,
    gives the status line, the [Content-Type] line, the line
    [Content-Encoding: gzip] exactly when gzip is applied, the
    [Content-Length] line with the length of the body that follows, and
    the blank line that ends the block. *)
Theorem content_encoding_iff_gzip status body content_type use_gzip response :
  CR ∉ status -> CR ∉ content_type ->
  make_response rt status body content_type use_gzip = Return response ->
  exists text raw,
    body_bytes body = Some raw
    /\ let sent := if use_gzip then gzip_compress rt raw else raw in
       response = utf8 text ++ sent
       /\ split CRLF text
          = [lit "HTTP/1.1 " ++ status; lit "Content-Type: " ++ content_type]
            ++ (if use_gzip then [lit "Content-Encoding: gzip"] else [])
            ++ [lit "Content-Length: " ++ str_of_nat (length sent); []; []]
       /\ (lit "Content-Encoding: gzip" ∈ split CRLF text
           <-> use_gzip = true).
Proof.
  intros Hstatus Hct. unfold make_response.
  destruct (body_bytes body) as [raw|]; [|done]. cbn zeta.
  unfold compress_content.
  set (sent := if use_gzip then gzip_compress rt raw else raw).
  destruct (encode _) as [head|] eqn:Hhead; [|done].
  apply encode_Some in Hhead as [_ ->]. intros [= <-].
  exists (PyStr.join CRLF (header_lines status content_type use_gzip sent)),
    raw.
  split; [done|]. split; [done|].
  assert (Hsplit : split CRLF
            (PyStr.join CRLF (header_lines status content_type use_gzip sent))
          = header_lines status content_type use_gzip sent).
  { apply split_join_crlf.
    - unfold header_lines. by destruct use_gzip.
    - assert (Hlength : CR ∉ lit "Content-Length: " ++ str_of_nat (length sent)).
      { rewrite elem_of_app. intros [H|H]; [revert H; no_cr_literal|].
        by apply str_of_nat_no_cr in H. }
      assert (Hline1 : CR ∉ lit "HTTP/1.1 " ++ status).
      { rewrite elem_of_app. intros [H|H]; [revert H; no_cr_literal|done]. }
      assert (Hline2 : CR ∉ lit "Content-Type: " ++ content_type).
      { rewrite elem_of_app. intros [H|H]; [revert H; no_cr_literal|done]. }
      unfold header_lines. destruct use_gzip; cbn [app];
        repeat (apply Forall_cons; split);
        try done; try apply not_elem_of_nil; try no_cr_literal.
      all: constructor. }
  rewrite Hsplit. unfold header_lines.
  destruct use_gzip; cbn [app].
  - split; [done|]. split; [done|]. intros _. rewrite !elem_of_cons. auto.
  - split; [done|]. split; [|done]. rewrite !elem_of_cons, elem_of_nil.
    intros [H|[H|[H|[H|[H|[]]]]]]; cbn in H; discriminate H.
Qed.

End header_facts.

Section header_examples.
Import PyStr FS Props HTTPServer.

Lemma content_encoding_iff_gzip_witness :
  exists text,
    make_response demo_runtime (lit "200 OK") (BodyStr (lit "abc"))
      (lit "text/plain") true
    = Return (utf8 text ++ demo_compress (utf8 (lit "abc")))
    /\ split CRLF text
       = [lit "HTTP/1.1 200 OK"; lit "Content-Type: text/plain";
          lit "Content-Encoding: gzip"; lit "Content-Length: 5"; []; []].
Proof.
  assert (Hstatus : CR ∉ lit "200 OK").
  { cbn [lit]. intros H.
    repeat (apply elem_of_cons in H as [H|H]; [discriminate H|]).
    by apply elem_of_nil in H. }
  assert (Hct : CR ∉ lit "text/plain").
  { cbn [lit]. intros H.
    repeat (apply elem_of_cons in H as [H|H]; [discriminate H|]).
    by apply elem_of_nil in H. }
  destruct (make_response demo_runtime (lit "200 OK") (BodyStr (lit "abc"))
              (lit "text/plain") true) as [response|e] eqn:Hresp;
    [|vm_compute in Hresp; discriminate Hresp].
  destruct (content_encoding_iff_gzip demo_runtime _ _ _ _ response
              Hstatus Hct Hresp) as (text & raw & Hraw & Hsent & Hsplit & _).
  injection Hraw as <-. exists text. split; [by rewrite Hsent|exact Hsplit].
Defined.

End header_examples.
